(** * Bayesian Structural Time Series: the [BSTS] class of [lib/bsts.py]

    A shallow embedding of the class [BSTS] (methods [__init__], [fit],
    [posterior_model], [predict], [predict_trajectories]) and the proofs
    of the properties its specification states.

    Conventions of the embedding.

    - Numbers.  The arrays of the program hold numbers on which the code
      only uses [+], [*], the division of [mean], and the conversion of
      an integer.  They are kept abstract (class [Num]); no law is
      assumed on them unless a theorem says so (class [ExactNum]), so
      that every theorem stated without [ExactNum] holds for whatever
      arithmetic the arrays carry, the binary64 numbers of numpy
      included ([float_Num]).  The theorems that rearrange arithmetic
      are stated over exact arithmetic, which binary64 is not.
    - Python exceptions are values of [exn]; a method is a function of
      the object ([self]) and of the state of numpy's global random
      generator, returning a result or an exception together with the
      new object and generator ([M]).
    - The sampler of the modelling library (pymc3) and numpy's normal
      generator are external: [sample] and [np_random_normal] are
      parameters.  What the library checks while the graph is declared
      (the shape of a random walk, the shapes of the operands of an
      elementwise operation) is part of the embedding. *)

From Stdlib Require Import String.
From Stdlib Require Import List ZArith Bool Lia PeanoNat.
From Stdlib Require Import QArith Qcanon.
From Stdlib Require Import PrimFloat.
Import ListNotations.

Close Scope Qc_scope.
Close Scope Q_scope.
Open Scope nat_scope.

Set Implicit Arguments.

(** ** Numbers *)

Class Num (R : Type) : Type := {
  zero : R;
  add : R -> R -> R;
  mul : R -> R -> R;
  div : R -> R -> R;
  of_nat : nat -> R
}.

(** The laws of exact arithmetic that the closed form of the forecast
    needs (they hold in every semiring, with [of_nat] the canonical
    map). *)
Class ExactNum (R : Type) {num : Num R} : Prop := {
  add_0_l : forall x : R, add zero x = x;
  add_0_r : forall x : R, add x zero = x;
  add_assoc : forall x y z : R, add (add x y) z = add x (add y z);
  mul_nat_0 : forall x : R, mul (of_nat 0) x = zero;
  mul_nat_S : forall (n : nat) (x : R), mul (of_nat (S n)) x = add (mul (of_nat n) x) x
}.

Arguments ExactNum R {num}.

(** ** Python exceptions and results *)

Inductive exn : Type :=
| TypeError          (* 'NoneType' object is not subscriptable *)
| IndexError         (* index out of bounds *)
| ValueError         (* operands could not be aligned *)
| AttributeError     (* None has no such attribute *)
| LibraryError (msg : string).   (* raised by the external sampler *)

Inductive result (A : Type) : Type :=
| Ok (a : A)
| Err (e : exn).

Arguments Ok {A} a.
Arguments Err {A} e.

Section Arrays.

Context {R : Type} {num : Num R}.

(** ** One-dimensional arrays and Python lists *)

(** [x[i]] for a non-negative index. *)
Definition getitem (x : list R) (i : nat) : result R :=
  match nth_error x i with
  | Some a => Ok a
  | None => Err IndexError
  end.

Definition np_zeros (n : nat) : list R := repeat zero n.

(** [x.sum()], accumulated from the left. *)
Definition sum (x : list R) : R := fold_left add x zero.

(** [x.mean()]: the sum divided by the number of elements. *)
Definition mean (x : list R) : R := div (sum x) (of_nat (length x)).

(** [x + a] for an array [x] and a scalar [a]. *)
Definition add_scalar (x : list R) (a : R) : list R :=
  map (fun xi => add xi a) x.

(** [x + y] for two one-dimensional operands.  Operands of the same
    length are added elementwise; operands of different lengths are
    reported as an alignment failure (numpy's broadcasting of a
    one-element operand is not modelled: the methods only meet it when
    the training window and the features disagree in length). *)
Definition np_add (x y : list R) : result (list R) :=
  if Nat.eqb (length x) (length y)
  then Ok (map (fun p => add (fst p) (snd p)) (combine x y))
  else Err ValueError.

(** ** Two-dimensional arrays and data frames

    A value denotes the array of shape [(shape0, shape1)] whose cell
    [(t, i)] is [cell a t i].  The number of columns is kept apart from
    the rows, as numpy does, so that an array with no row or no column
    still has a shape. *)

Record ndarray2 : Type := {
  shape1 : nat;
  rows : list (list R)
}.

Definition shape0 (a : ndarray2) : nat := length (rows a).

Definition cell (a : ndarray2) (t i : nat) : R :=
  nth i (nth t (rows a) []) zero.

(** [a[:, i]] (also [features.iloc[:, i]]) for [i < shape1 a]. *)
Definition column (a : ndarray2) (i : nat) : list R :=
  map (fun t => cell a t i) (seq 0 (shape0 a)).

(** [a[:, -1]]: the last column; an array with no column has none. *)
Definition last_column (a : ndarray2) : result (list R) :=
  match shape1 a with
  | 0 => Err IndexError
  | S j => Ok (column a j)
  end.

(** [a.mean(axis=0)]: the mean of every column. *)
Definition mean_axis0 (a : ndarray2) : list R :=
  map (fun i => mean (column a i)) (seq 0 (shape1 a)).

(** [beta * features]: a vector against the columns of a frame; pandas
    requires as many entries as there are columns. *)
Definition mul_frame (beta : list R) (features : ndarray2) : result ndarray2 :=
  if Nat.eqb (length beta) (shape1 features)
  then Ok {| shape1 := shape1 features;
             rows := map (fun t =>
                            map (fun i => mul (nth i beta zero) (cell features t i))
                                (seq 0 (shape1 features)))
                         (seq 0 (shape0 features)) |}
  else Err ValueError.

(** [a.sum(axis=1)]: the sum of every row. *)
Definition sum_axis1 (a : ndarray2) : list R :=
  map (fun t => sum (map (fun i => cell a t i) (seq 0 (shape1 a))))
      (seq 0 (shape0 a)).

End Arrays.

Arguments ndarray2 R : clear implicits.

(** A pandas frame of numbers is read through the same operations. *)
Definition DataFrame (R : Type) : Type := ndarray2 R.

(** ** The model graph

    What [fit] declares to the modelling library: named random
    variables with a distribution, a shape and, for the likelihood, the
    observed data.  Shapes are integers, as [observed.shape[0] - 1] is
    computed before the library sees it. *)

Section Graph.

Context {R : Type} {num : Num R}.

Inductive expr : Type :=
| Number (c : R)                 (* a Python number *)
| Series (x : list R)            (* a column of the features *)
| RV (name : string)             (* a random variable of the graph *)
| Item (e : expr) (i : nat)      (* e[i] *)
| Add (a b : expr)               (* a + b *)
| Mul (a b : expr)               (* a * b *)
| Pow (a : expr) (k : Z).        (* a ** k *)

Inductive distribution : Type :=
| HalfNormal (sd : expr)
| Normal (mu sd : expr)
| GaussianRandomWalk (tau : expr) (mu : option expr).

Record random_variable : Type := {
  rv_name : string;
  rv_dist : distribution;
  rv_shape : option Z;               (* None: a scalar *)
  rv_observed : option (list R)
}.

Definition Model : Type := list random_variable.

Definition find_rv (name : string) (g : Model) : option random_variable :=
  find (fun v => String.eqb (rv_name v) name) g.

(** The shape of a tensor expression.  Inside a model context the
    library evaluates every expression on test values as it is built,
    so that operands that do not fit raise at once: a scalar combines
    with everything, a vector with a vector of the same length, a
    one-element vector being broadcast. *)
Inductive shape : Type :=
| Scalar
| Vector (n : nat).

Definition broadcast (a b : shape) : result shape :=
  match a, b with
  | Scalar, s => Ok s
  | s, Scalar => Ok s
  | Vector n, Vector m =>
      if Nat.eqb n m then Ok (Vector n)
      else if Nat.eqb n 1 then Ok (Vector m)
      else if Nat.eqb m 1 then Ok (Vector n)
      else Err ValueError
  end.

Fixpoint shape_of (g : Model) (e : expr) : result shape :=
  match e with
  | Number _ => Ok Scalar
  | Series x => Ok (Vector (length x))
  | RV name =>
      match find_rv name g with
      | Some v => match rv_shape v with
                  | None => Ok Scalar
                  | Some n => Ok (Vector (Z.to_nat n))
                  end
      | None => Err (LibraryError "unknown variable")
      end
  | Item a i =>
      match shape_of g a with
      | Ok (Vector n) => if Nat.ltb i n then Ok Scalar else Err IndexError
      | Ok Scalar => Err IndexError
      | Err x => Err x
      end
  | Add a b | Mul a b =>
      match shape_of g a, shape_of g b with
      | Ok sa, Ok sb => broadcast sa sb
      | Err x, _ => Err x
      | _, Err x => Err x
      end
  | Pow a _ => shape_of g a
  end.

(** What the library checks of a declaration before it adds the
    variable: a random walk needs at least one step (a negative shape
    raises [ValueError], an empty walk [IndexError] on its first
    element). *)
Definition check_declaration (d : distribution) (shape : option Z) : result unit :=
  match d, shape with
  | GaussianRandomWalk _ _, Some n =>
      if (n <? 0)%Z then Err ValueError
      else if (n =? 0)%Z then Err IndexError
      else Ok tt
  | _, _ => Ok tt
  end.

(** ** The trace

    The posterior draws the sampler returns, by name: one number per
    draw for the scalars, one row per draw for the vectors. *)

Record Trace : Type := {
  t_sigma_eps : list R;
  t_alpha : list R;
  t_beta : ndarray2 R;
  t_sigma_u : list R;
  t_sigma_v : list R;
  t_delta : ndarray2 R;
  t_trend : ndarray2 R
}.

(** ** The object *)

Record BSTS : Type := {
  model : option Model;
  trace : option Trace
}.

(** [BSTS()]: [__init__] sets both fields to [None]. *)
Definition init : BSTS := {| model := None; trace := None |}.

End Graph.

Arguments expr R : clear implicits.
Arguments distribution R : clear implicits.
Arguments random_variable R : clear implicits.
Arguments Model R : clear implicits.
Arguments Trace R : clear implicits.
Arguments BSTS R : clear implicits.

(** ** Methods *)

Section Methods.

Context {R : Type} {num : Num R}.

(** The state of numpy's global generator and the two external
    operations: [np.random.normal(loc, scale, size)] and pymc3's
    [sample(draws)] run on the model of the enclosing context. *)
Variable rng : Type.
Variable np_random_normal : R -> R -> nat -> rng -> list R * rng.
Variable sample : Model R -> nat -> rng -> result (Trace R) * rng.

Definition state : Type := (BSTS R * rng)%type.

Definition M (A : Type) : Type := state -> result A * state.

Definition ret {A} (a : A) : M A := fun w => (Ok a, w).

Definition bind {A B} (m : M A) (k : A -> M B) : M B :=
  fun w => match m w with
           | (Ok a, w') => k a w'
           | (Err e, w') => (Err e, w')
           end.

Definition lift {A} (r : result A) : M A := fun w => (r, w).

Notation "x <- m ;; k" := (bind m (fun x => k))
  (at level 61, m at next level, right associativity).
Notation "' p <- m ;; k" := (bind m (fun x => match x with p => k end))
  (at level 61, p pattern, m at next level, right associativity).
Notation "m ;; k" := (bind m (fun _ => k))
  (at level 61, right associativity).

(** [self.trace[key]]: subscripting [None] raises [TypeError]. *)
Definition trace_item {A} (key : Trace R -> A) : M A :=
  fun w => match trace (fst w) with
           | Some tr => (Ok (key tr), w)
           | None => (Err TypeError, w)
           end.

(** [np.random.normal(loc=loc, scale=scale, size=size)]. *)
Definition random_normal (loc scale : R) (size : nat) : M (list R) :=
  fun w => let (x, g) := np_random_normal loc scale size (snd w) in
           (Ok x, (fst w, g)).

(** [for t in ts: s = body(t, s)]. *)
Fixpoint for_each {S} (ts : list nat) (body : nat -> S -> M S) (s : S) : M S :=
  match ts with
  | [] => ret s
  | t :: ts' => s' <- body t s ;; for_each ts' body s'
  end.

(** [range(lo, hi)]. *)
Definition range (lo hi : nat) : list nat := seq lo (hi - lo).

(** [[m for _ in range(n)]]. *)
Fixpoint repeat_call {A} (n : nat) (m : M A) : M (list A) :=
  match n with
  | 0 => ret []
  | S n' => a <- m ;; rest <- repeat_call n' m ;; ret (a :: rest)
  end.

(** *** [fit] *)

(** [with Model() as self.model:] a fresh model becomes the context
    model and is bound to [self.model] on entry; the declarations of
    the block are added to that same object. *)
Definition enter_model : M unit :=
  fun w => (Ok tt, ({| model := Some []; trace := trace (fst w) |}, snd w)).

(** A distribution constructor called inside the block: the library
    checks the declaration and, if it accepts it, adds the variable to
    the context model and returns it; a rejected declaration raises and
    leaves the model with the variables declared so far.  (Without a
    context model the library raises [TypeError].) *)
Definition declare (name : string) (d : distribution R) (shape : option Z)
    (observed : option (list R)) : M (expr R) :=
  fun w => match model (fst w) with
           | Some g =>
               match check_declaration d shape with
               | Ok _ =>
                   (Ok (RV name),
                    ({| model := Some (g ++ [{| rv_name := name; rv_dist := d;
                                                rv_shape := shape;
                                                rv_observed := observed |}]);
                        trace := trace (fst w) |}, snd w))
               | Err x => (Err x, w)
               end
           | None => (Err TypeError, w)
           end.

(** An expression over random variables built inside the block: the
    library evaluates it on test values and raises when its operands
    do not fit.  (Outside a model context nothing is evaluated.) *)
Definition tensor (e : expr R) : M (expr R) :=
  fun w => match model (fst w) with
           | Some g => match shape_of g e with
                       | Ok _ => (Ok e, w)
                       | Err x => (Err x, w)
                       end
           | None => (Ok e, w)
           end.

(** [with self.model: sample(n_samples, progressbar=True)]. *)
Definition run_sample (n_samples : nat) : M (Trace R) :=
  fun w => match model (fst w) with
           | Some g => let (r, gen) := sample g n_samples (snd w) in
                       (r, (fst w, gen))
           | None => (Err AttributeError, w)
           end.

(** [self.trace = tr]. *)
Definition set_trace (tr : Trace R) : M unit :=
  fun w => (Ok tt, ({| model := model (fst w); trace := Some tr |}, snd w)).

(** The builtin [sum] of Python: it starts from the integer 0. *)
Definition py_sum (terms : list (expr R)) : expr R :=
  fold_left (@Add R) terms (Number (of_nat 0)).

Definition fit (features : DataFrame R) (observed : list R) (n_samples : nat)
    : M unit :=
  enter_model ;;
  (* Variance of y *)
  sigma_eps <- declare "sigma_eps" (HalfNormal (Number (of_nat 1))) None None ;;
  (* Regression coefs *)
  alpha <- declare "alpha" (Normal (Number (of_nat 0)) (Number (of_nat 10)))
             None None ;;
  beta <- declare "beta" (Normal (Number (of_nat 0)) (Number (of_nat 10)))
            (Some (Z.of_nat (shape1 features))) None ;;
  reg <- tensor
    (Add alpha
         (py_sum (map (fun i => Mul (Item beta i) (Series (column features i)))
                      (range 0 (shape1 features))))) ;;
  (* Trend *)
  sigma_u <- declare "sigma_u" (HalfNormal (Number (of_nat 1))) None None ;;
  sigma_v <- declare "sigma_v" (HalfNormal (Number (of_nat 1))) None None ;;
  delta <- declare "delta" (GaussianRandomWalk (Pow sigma_v (-2)) None)
             (Some (Z.of_nat (length observed) - 1)%Z) None ;;
  trend <- declare "trend" (GaussianRandomWalk (Pow sigma_u (-2)) (Some delta))
             (Some (Z.of_nat (length observed))) None ;;
  (* Observation *)
  mu <- tensor (Add trend reg) ;;
  y <- declare "y" (Normal mu sigma_eps) None (Some observed) ;;
  tr <- run_sample n_samples ;;
  set_trace tr.

(** *** [posterior_model] *)

Definition posterior_model (features : DataFrame R) : M (list R) :=
  trend <- trace_item (@t_trend R) ;;
  alpha <- trace_item (@t_alpha R) ;;
  let fitted := add_scalar (mean_axis0 trend) (mean alpha) in
  beta <- trace_item (@t_beta R) ;;
  weighted <- lift (mul_frame (mean_axis0 beta) features) ;;
  lift (np_add fitted (sum_axis1 weighted)).

(** *** [predict] *)

(** One turn of the loop of [predict]: the two [append]s at step [t]. *)
Definition predict_step (u v : list R) (t : nat) (s : list R * list R)
    : M (list R * list R) :=
  let (delta, trend) := s in
  d_prev <- lift (getitem delta (t - 1)) ;;
  v_t <- lift (getitem v t) ;;
  let delta := delta ++ [add d_prev v_t] in
  m_prev <- lift (getitem trend (t - 1)) ;;
  d_t <- lift (getitem delta t) ;;
  u_t <- lift (getitem u t) ;;
  ret (delta, trend ++ [add (add m_prev d_t) u_t]).

Definition predict (features : DataFrame R) (noise : bool) : M (list R) :=
  a <- trace_item (@t_alpha R) ;;
  let alpha := mean a in
  b <- trace_item (@t_beta R) ;;
  let beta := mean_axis0 b in
  ' (eps, u, v) <-
    (if noise then
       s <- trace_item (@t_sigma_eps R) ;;
       eps <- random_normal zero (mean s) (shape0 features) ;;
       s <- trace_item (@t_sigma_u R) ;;
       u <- random_normal zero (mean s) (shape0 features) ;;
       s <- trace_item (@t_sigma_v R) ;;
       v <- random_normal zero (mean s) (shape0 features) ;;
       ret (eps, u, v)
     else
       ret (np_zeros (shape0 features), np_zeros (shape0 features),
            np_zeros (shape0 features))) ;;
  d <- trace_item (@t_delta R) ;;
  d_last <- lift (last_column d) ;;
  v_0 <- lift (getitem v 0) ;;
  let delta := [add (mean d_last) v_0] in
  m <- trace_item (@t_trend R) ;;
  m_last <- lift (last_column m) ;;
  d_0 <- lift (getitem delta 0) ;;
  u_0 <- lift (getitem u 0) ;;
  let trend := [add (add (mean m_last) d_0) u_0] in
  ' (delta, trend) <-
    for_each (range 1 (shape0 features)) (predict_step u v) (delta, trend) ;;
  let level := add_scalar trend alpha in
  weighted <- lift (mul_frame beta features) ;;
  partial <- lift (np_add level (sum_axis1 weighted)) ;;
  lift (np_add partial eps).

(** *** [predict_trajectories] *)

(** The rows handed to [np.array], one per call of [predict]. *)
Definition predict_trajectories (features : DataFrame R) (n_samples : nat)
    : M (list (list R)) :=
  repeat_call n_samples (predict features true).


(** *** Frame conditions *)

(** A computation that leaves the object alone. *)
Definition keeps_self {A} (m : M A) : Prop :=
  forall w, fst (snd (m w)) = fst w.

(** A computation that neither uses nor changes the generator. *)
Definition reads_only {A} (m : M A) : Prop :=
  forall s g, snd (m (s, g)) = (s, g) /\
              forall g', fst (m (s, g')) = fst (m (s, g)).

End Methods.

Arguments state : clear implicits.
Arguments M : clear implicits.

(** ** The specification's formulas

    The right-hand sides of the contracts, written from the words of
    the specification, to be compared with what the methods compute. *)

Section Specification.

Context {R : Type} {num : Num R}.

(** The three noise vectors of one forecast. *)
Record noise_vectors : Type := {
  n_eps : list R;
  n_u : list R;
  n_v : list R
}.

(** [noise=False]: the three vectors are all zero. *)
Definition zero_noise (n : nat) : noise_vectors :=
  {| n_eps := np_zeros n; n_u := np_zeros n; n_v := np_zeros n |}.

(** The three vectors have [n] entries each. *)
Definition noise_sized (nz : noise_vectors) (n : nat) : Prop :=
  length (n_eps nz) = n /\ length (n_u nz) = n /\ length (n_v nz) = n.

Section Draws.

Variable rng : Type.
Variable np_random_normal : R -> R -> nat -> rng -> list R * rng.

(** [noise=True]: [eps], [u], [v] are drawn, in this order, with the
    posterior means of [sigma_eps], [sigma_u], [sigma_v] as standard
    deviations; the generator is left in the state after the three
    draws. *)
Definition draw_noise (tr : Trace R) (n : nat) (g : rng) : noise_vectors * rng :=
  let (eps, g1) := np_random_normal zero (mean (t_sigma_eps tr)) n g in
  let (u, g2) := np_random_normal zero (mean (t_sigma_u tr)) n g1 in
  let (v, g3) := np_random_normal zero (mean (t_sigma_v tr)) n g2 in
  ({| n_eps := eps; n_u := u; n_v := v |}, g3).

Definition noise_of (tr : Trace R) (n : nat) (noise : bool) (g : rng)
    : noise_vectors * rng :=
  if noise then draw_noise tr n g else (zero_noise n, g).

End Draws.

(** [Σ_i beta_i * features[t,i]]. *)
Definition regression (beta : list R) (features : DataFrame R) (t : nat) : R :=
  sum (map (fun i => mul (nth i beta zero) (cell features t i))
           (seq 0 (shape1 features))).

(** The posterior means the forecast starts from. *)
Definition alpha_hat (tr : Trace R) : R := mean (t_alpha tr).
Definition beta_hat (tr : Trace R) : list R := mean_axis0 (t_beta tr).
Definition last_trend (tr : Trace R) : R :=
  mean (column (t_trend tr) (shape1 (t_trend tr) - 1)).
Definition last_delta (tr : Trace R) : R :=
  mean (column (t_delta tr) (shape1 (t_delta tr) - 1)).

Section Recursion.

Variables (m_last d_last : R) (u v : list R).

(** [delta[0] = d_last + v[0]]; [delta[t] = delta[t-1] + v[t]]. *)
Fixpoint spec_delta (t : nat) : R :=
  match t with
  | 0 => add d_last (nth 0 v zero)
  | S t' => add (spec_delta t') (nth (S t') v zero)
  end.

(** [trend[0] = m_last + delta[0] + u[0]];
    [trend[t] = trend[t-1] + delta[t] + u[t]]. *)
Fixpoint spec_trend (t : nat) : R :=
  match t with
  | 0 => add (add m_last (spec_delta 0)) (nth 0 u zero)
  | S t' => add (add (spec_trend t') (spec_delta (S t'))) (nth (S t') u zero)
  end.

End Recursion.

(** The trajectory of the forecast contract: at each [t],
    [trend[t] + alpha_hat + Σ_i beta_hat_i * features[t,i] + eps[t]]. *)
Definition spec_predict (tr : Trace R) (features : DataFrame R)
    (nz : noise_vectors) : list R :=
  map (fun t =>
         add (add (add (spec_trend (last_trend tr) (last_delta tr)
                                   (n_u nz) (n_v nz) t)
                       (alpha_hat tr))
                  (regression (beta_hat tr) features t))
             (nth t (n_eps nz) zero))
      (seq 0 (shape0 features)).

(** The linear extrapolation of the last fitted level and slope:
    [last_trend + (t+1) * last_delta + alpha_hat + Σ_i ...]. *)
Definition closed_form (tr : Trace R) (features : DataFrame R) : list R :=
  map (fun t =>
         add (add (add (last_trend tr) (mul (of_nat (t + 1)) (last_delta tr)))
                  (alpha_hat tr))
             (regression (beta_hat tr) features t))
      (seq 0 (shape0 features)).

(** The fitted signal of the summarizer contract: at each [t],
    [mean(trend[:,t]) + mean(alpha) + Σ_i mean(beta_i) * features[t,i]]. *)
Definition spec_posterior_model (tr : Trace R) (features : DataFrame R) : list R :=
  map (fun t =>
         add (add (mean (column (t_trend tr) t)) (mean (t_alpha tr)))
             (sum (map (fun i => mul (mean (column (t_beta tr) i))
                                     (cell features t i))
                       (seq 0 (shape1 features)))))
      (seq 0 (shape0 features)).

(** The graph of the model specification for [K] control columns and an
    observed series: the eight named quantities with their priors and
    shapes. *)
Definition regression_term (features : DataFrame R) : expr R :=
  Add (RV "alpha")
      (fold_left (@Add R)
         (map (fun i => Mul (Item (RV "beta") i) (Series (column features i)))
              (seq 0 (shape1 features)))
         (Number (of_nat 0))).

Definition scalar_rv (name : string) (d : distribution R) : random_variable R :=
  {| rv_name := name; rv_dist := d; rv_shape := None; rv_observed := None |}.

Definition vector_rv (name : string) (d : distribution R) (n : Z)
    : random_variable R :=
  {| rv_name := name; rv_dist := d; rv_shape := Some n; rv_observed := None |}.

Definition declared_model (features : DataFrame R) (observed : list R) : Model R :=
  [ scalar_rv "sigma_eps" (HalfNormal (Number (of_nat 1)));
    scalar_rv "alpha" (Normal (Number (of_nat 0)) (Number (of_nat 10)));
    vector_rv "beta" (Normal (Number (of_nat 0)) (Number (of_nat 10)))
              (Z.of_nat (shape1 features));
    scalar_rv "sigma_u" (HalfNormal (Number (of_nat 1)));
    scalar_rv "sigma_v" (HalfNormal (Number (of_nat 1)));
    vector_rv "delta" (GaussianRandomWalk (Pow (RV "sigma_v") (-2)) None)
              (Z.of_nat (length observed) - 1);
    vector_rv "trend"
              (GaussianRandomWalk (Pow (RV "sigma_u") (-2)) (Some (RV "delta")))
              (Z.of_nat (length observed));
    {| rv_name := "y";
       rv_dist := Normal (Add (RV "trend") (regression_term features))
                         (RV "sigma_eps");
       rv_shape := None;
       rv_observed := Some observed |} ].

(** The graph as it stands after the first [k] declarations. *)
Definition declared_so_far (k : nat) (features : DataFrame R) (observed : list R)
    : Model R :=
  firstn k (declared_model features observed).

(** The shape of the regression term: a scalar without control column,
    else a vector with one entry per row of the features. *)
Definition regression_shape (features : DataFrame R) : shape :=
  match shape1 features with
  | 0 => Scalar
  | S _ => Vector (shape0 features)
  end.

(** The declared shape of a named quantity of a graph. *)
Definition declared_shape (name : string) (g : Model R) : option (option Z) :=
  option_map (@rv_shape R) (find_rv name g).

End Specification.

Arguments noise_vectors R : clear implicits.

(** ** Further notions, used to state how the methods behave beyond
    their contracts *)

Section Further.

Context {R : Type} {num : Num R}.

(** [features.iloc[:k]]: the first [k] rows of a frame. *)
Definition head_rows (k : nat) (a : DataFrame R) : DataFrame R :=
  {| shape1 := shape1 a; rows := firstn k (rows a) |}.

(** [np.cumsum(x)[t]]: the running sum [x[0] + ... + x[t]]. *)
Fixpoint cumsum (x : nat -> R) (t : nat) : R :=
  match t with
  | 0 => x 0
  | S t' => add (cumsum x t') (x (S t'))
  end.

Variable rng : Type.

(** A computation whose result and effect on the generator depend on
    the object through [self.trace] only, and that keeps that field. *)
Definition reads_trace_only {A} (m : M R rng A) : Prop :=
  forall s s' g, trace s = trace s' ->
    fst (m (s, g)) = fst (m (s', g)) /\
    snd (snd (m (s, g))) = snd (snd (m (s', g))) /\
    trace (fst (snd (m (s, g)))) = trace (fst (snd (m (s', g)))).

End Further.

(** ** A concrete instance

    Exact rational numbers, a deterministic stand-in for the generator
    and for the sampler, and small inputs on which the methods can be
    run. *)

#[export] Instance Qc_Num : Num Qc := {
  zero := Q2Qc 0;
  add := Qcplus;
  mul := Qcmult;
  div := Qcdiv;
  of_nat := fun n => Q2Qc (inject_Z (Z.of_nat n))
}.

Definition q (n : nat) : Qc := of_nat n.

(** The generator state is a counter; a draw of [size] numbers returns
    [loc + scale * (g + i)] for [i < size] and advances the counter. *)
Definition toy_normal (loc scale : Qc) (size : nat) (g : nat) : list Qc * nat :=
  (map (fun i => add loc (mul scale (of_nat (g + i)))) (seq 0 size), g + size).

(** A trace of two draws for a model fitted on three time steps with
    one control column. *)
Definition toy_trace : Trace Qc :=
  {| t_sigma_eps := [q 1; q 3];
     t_alpha := [q 2; q 4];
     t_beta := {| shape1 := 1; rows := [[q 1]; [q 3]] |};
     t_sigma_u := [q 1; q 1];
     t_sigma_v := [q 0; q 2];
     t_delta := {| shape1 := 2; rows := [[q 0; q 1]; [q 2; q 3]] |};
     t_trend := {| shape1 := 3; rows := [[q 5; q 6; q 7]; [q 7; q 8; q 11]] |} |}.

(** A sampler that accepts every graph. *)
Definition toy_sample (g : Model Qc) (n : nat) (gen : nat)
    : result (Trace Qc) * nat :=
  (Ok toy_trace, S gen).

Definition toy_fitted : BSTS Qc := {| model := None; trace := Some toy_trace |}.

(** Three time steps of one control column. *)
Definition toy_features : DataFrame Qc :=
  {| shape1 := 1; rows := [[q 1]; [q 2]; [q 3]] |}.

(** Three time steps, no control column; and a series of two values. *)
Definition no_columns : DataFrame Qc := {| shape1 := 0; rows := [[]; []; []] |}.
Definition two_columns_free : DataFrame Qc := {| shape1 := 0; rows := [[]; []] |}.
Definition toy_observed : list Qc := [q 1; q 2].

(** No time step at all. *)
Definition no_rows : DataFrame Qc := {| shape1 := 1; rows := [] |}.


(** A series of three values, aligned with [toy_features]. *)
Definition toy_observed3 : list Qc := [q 5; q 6; q 8].

(** One time step of two control columns, one more than the toy model has. *)
Definition two_columns : DataFrame Qc := {| shape1 := 2; rows := [[q 1; q 2]] |}.

(** A single time step, of features and of observations. *)
Definition one_row : DataFrame Qc := {| shape1 := 1; rows := [[q 1]] |}.
Definition one_observed : list Qc := [q 5].

(** ** The binary64 instance

    The numbers numpy computes with.  An integer is converted by
    counting up from zero, which is exact below 2^53. *)

Fixpoint float_of_nat (n : nat) : float :=
  match n with
  | 0 => PrimFloat.zero
  | S n' => PrimFloat.add (float_of_nat n') PrimFloat.one
  end.

#[export] Instance float_Num : Num float := {
  zero := PrimFloat.zero;
  add := PrimFloat.add;
  mul := PrimFloat.mul;
  div := PrimFloat.div;
  of_nat := float_of_nat
}.

(** A generator stand-in that draws its location every time. *)
Definition float_normal (loc scale : float) (size : nat) (g : unit)
    : list float * unit :=
  (repeat loc size, g).

(** A trace of one draw: the fitted level ends at 0 with slope 0.1 (the
    binary64 number nearest to it), no control column, intercept 0. *)
Definition float_trace : Trace float :=
  {| t_sigma_eps := [PrimFloat.one];
     t_alpha := [PrimFloat.zero];
     t_beta := {| shape1 := 0; rows := [[]] |};
     t_sigma_u := [PrimFloat.one];
     t_sigma_v := [PrimFloat.one];
     t_delta := {| shape1 := 1; rows := [[0x1.999999999999ap-4%float]] |};
     t_trend := {| shape1 := 2; rows := [[PrimFloat.zero; PrimFloat.zero]] |} |}.

Definition float_fitted : BSTS float :=
  {| model := None; trace := Some float_trace |}.

(** Six time steps, no control column. *)
Definition float_features : DataFrame float :=
  {| shape1 := 0; rows := [[]; []; []; []; []; []] |}.

(** ** Proofs *)

Section Properties.

Context {R : Type} {num : Num R}.
Variable rng : Type.
Variable np_random_normal : R -> R -> nat -> rng -> list R * rng.
Variable sample : Model R -> nat -> rng -> result (Trace R) * rng.


(** *** Running a computation step by step *)

Lemma bind_ok {A B} (m : M R rng A) (k : A -> M R rng B) w a w' :
  m w = (Ok a, w') -> bind m k w = k a w'.
Proof. unfold bind. intros ->. reflexivity. Qed.

Lemma bind_err {A B} (m : M R rng A) (k : A -> M R rng B) w e w' :
  m w = (Err e, w') -> bind m k w = (Err e, w').
Proof. unfold bind. intros ->. reflexivity. Qed.

Lemma trace_item_ok {A} (key : Trace R -> A) (s : BSTS R) (g : rng) tr :
  trace s = Some tr -> trace_item key (s, g) = (Ok (key tr), (s, g)).
Proof. unfold trace_item. simpl. intros ->. reflexivity. Qed.

Lemma trace_item_none {A} (key : Trace R -> A) (s : BSTS R) (g : rng) :
  trace s = None -> trace_item key (s, g) = (Err TypeError, (s, g)).
Proof. unfold trace_item. simpl. intros ->. reflexivity. Qed.

(** *** Computations that leave the object alone *)


Lemma keeps_ret {A} (a : A) : keeps_self (ret (R:=R) (rng:=rng) a).
Proof. intros w. reflexivity. Qed.

Lemma keeps_lift {A} (r : result A) : keeps_self (lift (R:=R) (rng:=rng) r).
Proof. intros w. reflexivity. Qed.

Lemma keeps_trace_item {A} (key : Trace R -> A) : keeps_self (trace_item (rng:=rng) key).
Proof. intros w. unfold trace_item. destruct (trace (fst w)); reflexivity. Qed.

Lemma keeps_random_normal loc scale size :
  keeps_self (random_normal np_random_normal loc scale size).
Proof.
  intros w. unfold random_normal.
  destruct (np_random_normal loc scale size (snd w)). reflexivity.
Qed.

Lemma keeps_bind {A B} (m : M R rng A) (k : A -> M R rng B) :
  keeps_self m -> (forall a, keeps_self (k a)) -> keeps_self (bind m k).
Proof.
  intros Hm Hk w. unfold bind. specialize (Hm w).
  destruct (m w) as [[a | e] w']; simpl in *.
  - rewrite Hk. exact Hm.
  - exact Hm.
Qed.

Lemma keeps_for_each {S} (body : nat -> S -> M R rng S) ts :
  (forall t s, keeps_self (body t s)) ->
  forall s, keeps_self (for_each ts body s).
Proof.
  intros Hbody. induction ts as [| t ts IH]; intros s; simpl.
  - apply keeps_ret.
  - apply keeps_bind; auto.
Qed.

Lemma keeps_repeat_call {A} (m : M R rng A) n :
  keeps_self m -> keeps_self (repeat_call n m).
Proof.
  intros Hm. induction n as [| n IH]; simpl.
  - apply keeps_ret.
  - apply keeps_bind; [exact Hm | intros a].
    apply keeps_bind; [exact IH | intros rest]. apply keeps_ret.
Qed.

Ltac keeps :=
  repeat first
    [ apply keeps_ret | apply keeps_lift | apply keeps_trace_item
    | apply keeps_random_normal
    | apply keeps_bind; [| intros ?]
    | apply keeps_for_each; intros ? ?
    | match goal with
      | |- keeps_self (match ?x with _ => _ end) => destruct x
      | |- keeps_self (let (_, _) := ?x in _) => destruct x
      end ].

Lemma keeps_predict_step u v t s : keeps_self (predict_step (rng:=rng) u v t s).
Proof. unfold predict_step. keeps. Qed.

Lemma keeps_predict features noise :
  keeps_self (predict np_random_normal features noise).
Proof. unfold predict. keeps. apply keeps_predict_step. Qed.

Lemma keeps_posterior_model features :
  keeps_self (posterior_model (rng:=rng) features).
Proof. unfold posterior_model. keeps. Qed.


(** *** Computations that neither use nor change the generator *)


Lemma reads_ret {A} (a : A) : reads_only (ret (R:=R) (rng:=rng) a).
Proof. intros s g. split; reflexivity. Qed.

Lemma reads_lift {A} (r : result A) : reads_only (lift (R:=R) (rng:=rng) r).
Proof. intros s g. split; reflexivity. Qed.

Lemma reads_trace_item {A} (key : Trace R -> A) :
  reads_only (trace_item (rng:=rng) key).
Proof.
  intros s g. unfold trace_item. simpl.
  destruct (trace s); split; reflexivity.
Qed.

Lemma reads_bind {A B} (m : M R rng A) (k : A -> M R rng B) :
  reads_only m -> (forall a, reads_only (k a)) -> reads_only (bind m k).
Proof.
  intros Hm Hk s g. unfold bind.
  destruct (Hm s g) as [Hs Hr].
  assert (Hall : forall g', m (s, g') = (fst (m (s, g)), (s, g'))).
  { intros g'. destruct (Hm s g') as [Hs' _].
    rewrite (surjective_pairing (m (s, g'))), Hs', Hr. reflexivity. }
  split.
  - rewrite (Hall g). destruct (fst (m (s, g))) as [a | e].
    + apply Hk.
    + reflexivity.
  - intros g'. rewrite (Hall g'), (Hall g).
    destruct (fst (m (s, g))) as [a | e].
    + apply Hk.
    + reflexivity.
Qed.

Lemma reads_for_each {S} (body : nat -> S -> M R rng S) ts :
  (forall t s, reads_only (body t s)) ->
  forall s, reads_only (for_each ts body s).
Proof.
  intros Hbody. induction ts as [| t ts IH]; intros s; simpl.
  - apply reads_ret.
  - apply reads_bind; auto.
Qed.

Ltac reads :=
  repeat first
    [ apply reads_ret | apply reads_lift | apply reads_trace_item
    | apply reads_bind; [| intros ?]
    | apply reads_for_each; intros ? ?
    | match goal with
      | |- reads_only (match ?x with _ => _ end) => destruct x
      | |- reads_only (let (_, _) := ?x in _) => destruct x
      end ].

Lemma reads_predict_step u v t s : reads_only (predict_step (rng:=rng) u v t s).
Proof. unfold predict_step. reads. Qed.

Lemma reads_predict_noiseless features :
  reads_only (predict np_random_normal features false).
Proof. unfold predict. reads. apply reads_predict_step. Qed.


(** *** Lists built over a range of indices *)

Lemma nth_map_seq {A} (f : nat -> A) n i d :
  i < n -> nth i (map f (seq 0 n)) d = f i.
Proof.
  intros Hi. rewrite (nth_indep _ d (f 0)) by (rewrite length_map, length_seq; exact Hi).
  rewrite (map_nth f (seq 0 n) 0 i), seq_nth by exact Hi. reflexivity.
Qed.

Lemma nth_error_map_seq {A} (f : nat -> A) n i :
  i < n -> nth_error (map f (seq 0 n)) i = Some (f i).
Proof.
  intros Hi. rewrite nth_error_map, nth_error_seq.
  destruct (Nat.ltb_spec i n); [reflexivity | lia].
Qed.

Lemma map_seq_S {A} (f : nat -> A) n :
  map f (seq 0 (S n)) = map f (seq 0 n) ++ [f n].
Proof. rewrite seq_S, map_app. reflexivity. Qed.

Lemma getitem_ok (x : list R) i :
  i < length x -> getitem x i = Ok (nth i x zero).
Proof.
  intros Hi. unfold getitem. rewrite (nth_error_nth' x zero Hi). reflexivity.
Qed.

Lemma getitem_empty (x : list R) i :
  length x = 0 -> getitem x i = Err IndexError.
Proof.
  intros Hx. destruct x; [| discriminate]. destruct i; reflexivity.
Qed.

Lemma np_add_ok (x y : list R) n :
  length x = n -> length y = n ->
  np_add x y = Ok (map (fun t => add (nth t x zero) (nth t y zero)) (seq 0 n)).
Proof.
  intros Hx Hy. unfold np_add. rewrite Hx, Hy, Nat.eqb_refl. f_equal.
  apply (nth_ext _ _ zero zero).
  - rewrite !length_map, length_combine, length_seq. lia.
  - intros i Hi. rewrite length_map, length_combine in Hi.
    rewrite nth_map_seq by lia.
    rewrite (nth_indep _ zero ((fun p => add (fst p) (snd p)) (zero, zero)))
      by (rewrite length_map, length_combine; lia).
    rewrite (map_nth (fun p => add (fst p) (snd p))), combine_nth by lia.
    reflexivity.
Qed.

Lemma np_zeros_length n : length (np_zeros (R:=R) n) = n.
Proof. apply repeat_length. Qed.

Lemma nth_np_zeros n t : nth t (np_zeros (R:=R) n) zero = zero.
Proof. unfold np_zeros. apply nth_repeat. Qed.

Lemma mean_axis0_length (a : ndarray2 R) : length (mean_axis0 a) = shape1 a.
Proof. unfold mean_axis0. rewrite length_map, length_seq. reflexivity. Qed.

Lemma last_column_ok (a : ndarray2 R) :
  1 <= shape1 a -> last_column a = Ok (column a (shape1 a - 1)).
Proof.
  unfold last_column. destruct (shape1 a) as [| j]; [lia |].
  intros _. simpl. rewrite Nat.sub_0_r. reflexivity.
Qed.

(** [(beta * features).sum(axis=1)] is the regression sum of every row. *)
Lemma weighted_sum (beta : list R) (features : DataFrame R) :
  length beta = shape1 features ->
  exists w, mul_frame beta features = Ok w /\
            sum_axis1 w = map (regression beta features) (seq 0 (shape0 features)).
Proof.
  intros Hlen. unfold mul_frame. rewrite Hlen, Nat.eqb_refl.
  eexists. split; [reflexivity |].
  unfold sum_axis1, shape0, regression. simpl.
  rewrite length_map, length_seq.
  apply map_ext_in. intros t Ht. apply in_seq in Ht. f_equal.
  apply map_ext_in. intros i Hi. apply in_seq in Hi.
  unfold cell at 1. simpl.
  rewrite (@nth_map_seq (list R)) by lia.
  rewrite nth_map_seq by lia. reflexivity.
Qed.


(** *** The loop of [predict] *)

Lemma for_each_app {S} (body : nat -> S -> M R rng S) ts ts' s w :
  for_each (ts ++ ts') body s w = bind (for_each ts body s) (for_each ts' body) w.
Proof.
  revert s w. induction ts as [| t ts IH]; intros s w; simpl.
  - reflexivity.
  - unfold bind. destruct (body t s w) as [[a | e] w1].
    + apply IH.
    + reflexivity.
Qed.

Lemma predict_step_run (u v : list R) (m d : R) k (w : state R rng) :
  S k < length u -> S k < length v ->
  predict_step u v (S k)
    (map (spec_delta d v) (seq 0 (S k)), map (spec_trend m d u v) (seq 0 (S k))) w
  = (Ok (map (spec_delta d v) (seq 0 (S (S k))),
         map (spec_trend m d u v) (seq 0 (S (S k)))), w).
Proof.
  intros Hu Hv. unfold predict_step, bind, lift, ret.
  replace (S k - 1) with k by lia.
  unfold getitem at 1. rewrite nth_error_map_seq by lia.
  rewrite (getitem_ok v) by lia.
  unfold getitem at 1. rewrite nth_error_map_seq by lia.
  change (add (spec_delta d v k) (nth (S k) v zero)) with (spec_delta d v (S k)).
  rewrite <- (map_seq_S (spec_delta d v) (S k)).
  unfold getitem at 1. rewrite nth_error_map_seq by lia.
  rewrite (getitem_ok u) by lia.
  change (add (add (spec_trend m d u v k) (spec_delta d v (S k))) (nth (S k) u zero))
    with (spec_trend m d u v (S k)).
  rewrite <- (map_seq_S (spec_trend m d u v) (S k)).
  reflexivity.
Qed.

Lemma predict_loop (u v : list R) (m d : R) k (w : state R rng) :
  S k <= length u -> S k <= length v ->
  for_each (range 1 (S k)) (predict_step u v)
           ([spec_delta d v 0], [spec_trend m d u v 0]) w
  = (Ok (map (spec_delta d v) (seq 0 (S k)),
         map (spec_trend m d u v) (seq 0 (S k))), w).
Proof.
  unfold range. replace (S k - 1) with k by lia.
  induction k as [| k IH]; intros Hu Hv.
  - reflexivity.
  - rewrite seq_S, for_each_app.
    erewrite bind_ok by (apply IH; lia).
    change (1 + k) with (S k). unfold for_each.
    erewrite bind_ok by (apply predict_step_run; lia).
    reflexivity.
Qed.


(** *** A whole call of [predict] *)


Lemma zero_noise_sized n : noise_sized (zero_noise n) n.
Proof. unfold noise_sized. simpl. rewrite !np_zeros_length. auto. Qed.

Ltac run_step :=
  first
    [ erewrite bind_ok by (apply trace_item_ok; eassumption)
    | erewrite bind_ok
        by (unfold lift; rewrite last_column_ok by assumption; reflexivity)
    | erewrite bind_ok
        by (unfold lift; rewrite getitem_ok by (simpl; lia); reflexivity) ].

(** The block that prepares [eps], [u], [v]. *)
Lemma noise_block_run (s : BSTS R) (g : rng) (tr : Trace R) (n : nat)
    (noise : bool) :
  trace s = Some tr ->
  (if noise
   then
     bind (trace_item (@t_sigma_eps R)) (fun s0 =>
     bind (random_normal np_random_normal zero (mean s0) n) (fun eps =>
     bind (trace_item (@t_sigma_u R)) (fun s1 =>
     bind (random_normal np_random_normal zero (mean s1) n) (fun u =>
     bind (trace_item (@t_sigma_v R)) (fun s2 =>
     bind (random_normal np_random_normal zero (mean s2) n) (fun v =>
     ret (eps, u, v)))))))
   else ret (np_zeros n, np_zeros n, np_zeros n) : M R rng (list R * list R * list R))
    (s, g)
  = (Ok (n_eps (fst (noise_of np_random_normal tr n noise g)),
         n_u (fst (noise_of np_random_normal tr n noise g)),
         n_v (fst (noise_of np_random_normal tr n noise g))),
     (s, snd (noise_of np_random_normal tr n noise g))).
Proof.
  intros Htr. destruct noise; [| reflexivity].
  simpl noise_of. unfold draw_noise.
  run_step. unfold random_normal at 1, bind at 1. simpl snd. simpl fst.
  destruct (np_random_normal zero (mean (t_sigma_eps tr)) n g) as [eps g1].
  run_step. unfold random_normal at 1, bind at 1. simpl snd. simpl fst.
  destruct (np_random_normal zero (mean (t_sigma_u tr)) n g1) as [u g2].
  run_step. unfold random_normal at 1, bind at 1. simpl snd. simpl fst.
  destruct (np_random_normal zero (mean (t_sigma_v tr)) n g2) as [v g3].
  reflexivity.
Qed.

Lemma predict_run_sized s g tr features noise :
  noise_sized (fst (noise_of np_random_normal tr (shape0 features) noise g))
              (shape0 features) ->
  trace s = Some tr ->
  1 <= shape1 (t_delta tr) ->
  1 <= shape1 (t_trend tr) ->
  1 <= shape0 features ->
  shape1 (t_beta tr) = shape1 features ->
  predict np_random_normal features noise (s, g)
  = (Ok (spec_predict tr features
           (fst (noise_of np_random_normal tr (shape0 features) noise g))),
     (s, snd (noise_of np_random_normal tr (shape0 features) noise g))).
Proof.
  intros Hlen Htr Hd Hm Hrows Hcols.
  unfold predict. do 2 run_step.
  erewrite bind_ok by (apply noise_block_run; exact Htr).
  destruct (noise_of np_random_normal tr (shape0 features) noise g) as [nz g'].
  simpl fst in *. simpl snd. destruct Hlen as (Heps & Hu & Hv).
  do 7 run_step.
  fold (last_delta tr). fold (last_trend tr).
  unfold spec_predict.
  destruct (shape0 features) as [| k] eqn:Hk; [lia |].
  erewrite bind_ok
    by (apply (predict_loop (n_u nz) (n_v nz) (last_trend tr) (last_delta tr)); lia).
  destruct (weighted_sum (mean_axis0 (t_beta tr)) features) as (w & Hw & Hsum).
  { rewrite mean_axis0_length. exact Hcols. }
  erewrite bind_ok by (unfold lift; rewrite Hw; reflexivity).
  rewrite Hk in Hsum.
  erewrite bind_ok.
  2:{ unfold lift. rewrite np_add_ok with (n := S k); [reflexivity | |].
      - unfold add_scalar. rewrite !length_map, length_seq. reflexivity.
      - rewrite Hsum, length_map, length_seq. reflexivity. }
  unfold lift. rewrite np_add_ok with (n := S k);
    [| rewrite length_map, length_seq; reflexivity | exact Heps].
  f_equal. f_equal. apply map_ext_in. intros t Ht. apply in_seq in Ht.
  rewrite nth_map_seq by lia. rewrite Hsum. unfold add_scalar.
  rewrite map_map, !nth_map_seq by lia. reflexivity.
Qed.


(** The generator returns as many numbers as it is asked for. *)
Hypothesis normal_length :
  forall loc scale n g, length (fst (np_random_normal loc scale n g)) = n.

Lemma noise_of_sized tr n noise g :
  noise_sized (fst (noise_of np_random_normal tr n noise g)) n.
Proof.
  destruct noise; [| apply zero_noise_sized].
  unfold noise_sized, noise_of, draw_noise.
  pose proof (normal_length zero (mean (t_sigma_eps tr)) n g) as H1.
  destruct (np_random_normal zero (mean (t_sigma_eps tr)) n g) as [eps g1].
  pose proof (normal_length zero (mean (t_sigma_u tr)) n g1) as H2.
  destruct (np_random_normal zero (mean (t_sigma_u tr)) n g1) as [u g2].
  pose proof (normal_length zero (mean (t_sigma_v tr)) n g2) as H3.
  destruct (np_random_normal zero (mean (t_sigma_v tr)) n g2) as [v g3].
  simpl in *. auto.
Qed.

Lemma predict_run s g tr features noise :
  trace s = Some tr ->
  1 <= shape1 (t_delta tr) ->
  1 <= shape1 (t_trend tr) ->
  1 <= shape0 features ->
  shape1 (t_beta tr) = shape1 features ->
  predict np_random_normal features noise (s, g)
  = (Ok (spec_predict tr features
           (fst (noise_of np_random_normal tr (shape0 features) noise g))),
     (s, snd (noise_of np_random_normal tr (shape0 features) noise g))).
Proof. intros. apply predict_run_sized; auto using noise_of_sized. Qed.

(** *** A whole call of [posterior_model] *)

Lemma posterior_model_run (s : BSTS R) (g : rng) tr features :
  trace s = Some tr ->
  shape0 features = shape1 (t_trend tr) ->
  shape1 (t_beta tr) = shape1 features ->
  posterior_model features (s, g) = (Ok (spec_posterior_model tr features), (s, g)).
Proof.
  intros Htr Hrows Hcols. unfold posterior_model. do 3 run_step.
  destruct (weighted_sum (mean_axis0 (t_beta tr)) features) as (w & Hw & Hsum).
  { rewrite mean_axis0_length. exact Hcols. }
  erewrite bind_ok by (unfold lift; rewrite Hw; reflexivity).
  unfold lift. rewrite np_add_ok with (n := shape0 features).
  - f_equal. f_equal. unfold spec_posterior_model.
    apply map_ext_in. intros t Ht. apply in_seq in Ht.
    rewrite Hsum, nth_map_seq by lia.
    unfold add_scalar, mean_axis0. rewrite map_map, nth_map_seq by lia.
    f_equal. unfold regression. f_equal.
    apply map_ext_in. intros i Hi. apply in_seq in Hi.
    rewrite nth_map_seq by lia. reflexivity.
  - unfold add_scalar. rewrite length_map, mean_axis0_length. auto.
  - rewrite Hsum, length_map, length_seq. reflexivity.
Qed.

(** *** Shapes of the expressions of [fit] *)

Lemma shape_of_sum (g : Model R) (len : nat) (terms : list (expr R)) :
  (forall e, In e terms -> shape_of g e = Ok (Vector len)) ->
  forall acc s,
    shape_of g acc = Ok s -> s = Scalar \/ s = Vector len ->
    shape_of g (fold_left (@Add R) terms acc)
    = Ok (match terms with [] => s | _ :: _ => Vector len end).
Proof.
  induction terms as [| e terms IH]; intros Hterms acc s Hacc Hs.
  - exact Hacc.
  - simpl fold_left.
    rewrite (IH (fun e' H => Hterms e' (or_intror H)) (Add acc e) (Vector len)).
    + destruct terms; reflexivity.
    + simpl. rewrite Hacc, (Hterms e (or_introl eq_refl)).
      destruct Hs as [-> | ->]; simpl; [| rewrite Nat.eqb_refl]; reflexivity.
    + right. reflexivity.
Qed.

Lemma regression_term_shape (g : Model R) (features : DataFrame R) :
  shape_of g (RV "alpha") = Ok Scalar ->
  shape_of g (RV "beta") = Ok (Vector (shape1 features)) ->
  shape_of g (regression_term features) = Ok (regression_shape features).
Proof.
  intros Halpha Hbeta. unfold regression_term.
  change (shape_of g (Add ?a ?b))
    with (match shape_of g a, shape_of g b with
          | Ok sa, Ok sb => broadcast sa sb
          | Err x, _ => Err x
          | _, Err x => Err x
          end).
  rewrite Halpha.
  rewrite (@shape_of_sum g (shape0 features)) with (s := Scalar).
  - unfold regression_shape. destruct (shape1 features); reflexivity.
  - intros e He. apply in_map_iff in He. destruct He as (i & <- & Hi).
    apply in_seq in Hi.
    change (shape_of g (Mul ?a ?b))
      with (match shape_of g a, shape_of g b with
            | Ok sa, Ok sb => broadcast sa sb
            | Err x, _ => Err x
            | _, Err x => Err x
            end).
    change (shape_of g (Item ?a ?i))
      with (match shape_of g a with
            | Ok (Vector n) => if Nat.ltb i n then Ok Scalar else Err IndexError
            | Ok Scalar => Err IndexError
            | Err x => Err x
            end).
    rewrite Hbeta. destruct (Nat.ltb_spec i (shape1 features)); [| lia].
    simpl. unfold column. rewrite length_map, length_seq. reflexivity.
  - reflexivity.
  - left. reflexivity.
Qed.

(** *** A whole call of [fit] *)

Lemma tensor_ok (e : expr R) (s : BSTS R) (g : rng) graph sh :
  model s = Some graph -> shape_of graph e = Ok sh ->
  tensor e (s, g) = (Ok e, (s, g)).
Proof. intros Hm He. unfold tensor. simpl. rewrite Hm, He. reflexivity. Qed.

Lemma tensor_err (e : expr R) (s : BSTS R) (g : rng) graph x :
  model s = Some graph -> shape_of graph e = Err x ->
  tensor e (s, g) = (Err x, (s, g)).
Proof. intros Hm He. unfold tensor. simpl. rewrite Hm, He. reflexivity. Qed.

Lemma declare_ok name (d : distribution R) sh obs (s : BSTS R) (g : rng) graph :
  model s = Some graph -> check_declaration d sh = Ok tt ->
  declare name d sh obs (s, g)
  = (Ok (RV name),
     ({| model := Some (graph ++ [{| rv_name := name; rv_dist := d;
                                     rv_shape := sh; rv_observed := obs |}]);
         trace := trace s |}, g)).
Proof. intros Hm Hc. unfold declare. simpl. rewrite Hm, Hc. reflexivity. Qed.

Lemma check_walk_ok (tau : expr R) mu (n : Z) :
  (1 <= n)%Z -> check_declaration (GaussianRandomWalk tau mu) (Some n) = Ok tt.
Proof.
  intros Hn. unfold check_declaration.
  destruct (Z.ltb_spec n 0); [lia |]. destruct (Z.eqb_spec n 0); [lia |].
  reflexivity.
Qed.

(** The outcome of [fit], case by case: the declaration of [delta] is
    rejected for a series of fewer than two values; the sum
    [trend + reg] is rejected when the regression term does not fit
    the series; otherwise the sampler runs on the whole graph. *)
Lemma fit_eq features observed n (s : BSTS R) (g : rng) :
  fit sample features observed n (s, g)
  = match length observed with
    | 0 =>
        (Err ValueError,
         ({| model := Some (declared_so_far 5 features observed);
             trace := trace s |}, g))
    | 1 =>
        (Err IndexError,
         ({| model := Some (declared_so_far 5 features observed);
             trace := trace s |}, g))
    | S (S _) =>
        match broadcast (Vector (length observed)) (regression_shape features) with
        | Err x =>
            (Err x,
             ({| model := Some (declared_so_far 7 features observed);
                 trace := trace s |}, g))
        | Ok _ =>
            match sample (declared_model features observed) n g with
            | (Ok tr, g') =>
                (Ok tt, ({| model := Some (declared_model features observed);
                            trace := Some tr |}, g'))
            | (Err e, g') =>
                (Err e, ({| model := Some (declared_model features observed);
                            trace := trace s |}, g'))
            end
        end
    end.
Proof.
  unfold fit, range, py_sum. rewrite Nat.sub_0_r.
  fold (regression_term features).
  erewrite bind_ok by reflexivity.
  do 3 (erewrite bind_ok by reflexivity).
  erewrite bind_ok.
  2:{ eapply tensor_ok; [reflexivity |].
      apply regression_term_shape; simpl; [reflexivity |].
      rewrite Nat2Z.id. reflexivity. }
  do 2 (erewrite bind_ok by reflexivity).
  destruct (length observed) as [| [| T]] eqn:HT.
  - erewrite bind_err by reflexivity.
    unfold declared_so_far, declared_model. rewrite HT. reflexivity.
  - erewrite bind_err by reflexivity.
    unfold declared_so_far, declared_model. rewrite HT. reflexivity.
  - erewrite bind_ok by (eapply declare_ok; [reflexivity | apply check_walk_ok; lia]).
    erewrite bind_ok by (eapply declare_ok; [reflexivity | apply check_walk_ok; lia]).
    fold (regression_term features).
    match goal with
    | |- bind (tensor ?e) _ (?obj, _) = _ =>
        assert (Hshape : forall graph, model obj = Some graph ->
                  shape_of graph e
                  = broadcast (Vector (S (S T))) (regression_shape features))
    end.
    { intros graph Hgraph. simpl in Hgraph. injection Hgraph as <-.
      change (shape_of ?gr (Add ?a ?b))
        with (match shape_of gr a, shape_of gr b with
              | Ok sa, Ok sb => broadcast sa sb
              | Err x, _ => Err x
              | _, Err x => Err x
              end).
      rewrite regression_term_shape;
        [| reflexivity | simpl; rewrite Nat2Z.id; reflexivity].
      change (shape_of _ (RV "trend"))
        with (Ok (Vector (Z.to_nat (Z.of_nat (S (S T))))) : result shape).
      rewrite Nat2Z.id. reflexivity. }
    destruct (broadcast (Vector (S (S T))) (regression_shape features))
      as [sh | x] eqn:Hb.
    + erewrite bind_ok by (eapply tensor_ok; [reflexivity | apply Hshape; reflexivity]).
      erewrite bind_ok by reflexivity.
      unfold bind, run_sample, set_trace. cbn [fst snd model trace app].
      match goal with
      | |- context [sample ?gr n g] =>
          replace gr with (declared_model features observed)
            by (unfold declared_model; rewrite HT; reflexivity)
      end.
      destruct (sample (declared_model features observed) n g) as [[tr | e] g'];
        reflexivity.
    + erewrite bind_err
        by (eapply tensor_err; [reflexivity | apply Hshape; reflexivity]).
      unfold declared_so_far, declared_model. rewrite HT. reflexivity.
Qed.

(** The library accepts the graph: the series has at least two values
    and the regression term fits it. *)
Lemma fit_run features observed n (s : BSTS R) (g : rng) :
  2 <= length observed ->
  shape1 features = 0 \/ shape0 features = length observed ->
  fit sample features observed n (s, g)
  = match sample (declared_model features observed) n g with
    | (Ok tr, g') =>
        (Ok tt, ({| model := Some (declared_model features observed);
                    trace := Some tr |}, g'))
    | (Err e, g') =>
        (Err e, ({| model := Some (declared_model features observed);
                    trace := trace s |}, g'))
    end.
Proof.
  intros HT Hfit. rewrite fit_eq.
  destruct (length observed) as [| [| T]] eqn:Hlen; [lia | lia |].
  replace (broadcast (Vector (S (S T))) (regression_shape features))
    with (Ok (Vector (S (S T))) : result shape); [reflexivity |].
  unfold regression_shape. destruct Hfit as [-> | ->].
  - reflexivity.
  - destruct (shape1 features); [reflexivity |].
    simpl. rewrite Nat.eqb_refl. reflexivity.
Qed.

(** The library rejects the sum [trend + reg]: the features have a
    column and their rows are neither as many as the observed values
    nor a single one. *)
Lemma fit_mismatch features observed n (s : BSTS R) (g : rng) :
  2 <= length observed ->
  1 <= shape1 features ->
  shape0 features <> length observed ->
  shape0 features <> 1 ->
  fit sample features observed n (s, g)
  = (Err ValueError,
     ({| model := Some (declared_so_far 7 features observed);
         trace := trace s |}, g)).
Proof.
  intros HT HK Hrows Hone. rewrite fit_eq.
  destruct (length observed) as [| [| T]] eqn:Hlen; [lia | lia |].
  unfold regression_shape. destruct (shape1 features) as [| K]; [lia |].
  unfold broadcast.
  destruct (Nat.eqb_spec (S (S T)) (shape0 features)); [congruence |].
  destruct (Nat.eqb_spec (S (S T)) 1); [lia |].
  destruct (Nat.eqb_spec (shape0 features) 1); [contradiction |].
  reflexivity.
Qed.

(** A graph without control column does not mention the features. *)
Lemma declared_model_no_column (features features' : DataFrame R) observed :
  shape1 features = 0 -> shape1 features' = 0 ->
  declared_model features observed = declared_model features' observed.
Proof.
  intros H H'. unfold declared_model, regression_term. rewrite H, H'. reflexivity.
Qed.


(** *** The zero-noise recursion in exact arithmetic *)

Section Exact.

Context {exact : ExactNum R}.

Lemma spec_delta_noiseless d n t : spec_delta d (np_zeros n) t = d.
Proof.
  induction t as [| t IH]; simpl.
  - rewrite nth_np_zeros. apply add_0_r.
  - rewrite IH. change (nth (S t) (np_zeros n) zero) with (nth (S t) (np_zeros (R:=R) n) zero).
    rewrite nth_np_zeros. apply add_0_r.
Qed.

Lemma spec_trend_noiseless m d n t :
  spec_trend m d (np_zeros n) (np_zeros n) t = add m (mul (of_nat (t + 1)) d).
Proof.
  induction t as [| t IH].
  - simpl. rewrite !nth_np_zeros, !add_0_r.
    rewrite mul_nat_S, mul_nat_0, add_0_l. reflexivity.
  - change (spec_trend m d (np_zeros n) (np_zeros n) (S t))
      with (add (add (spec_trend m d (np_zeros n) (np_zeros n) t)
                     (spec_delta d (np_zeros n) (S t)))
                (nth (S t) (np_zeros n) zero)).
    rewrite IH, spec_delta_noiseless, nth_np_zeros, add_0_r, add_assoc.
    rewrite <- mul_nat_S. reflexivity.
Qed.

Lemma spec_predict_noiseless tr features :
  spec_predict tr features (zero_noise (shape0 features)) = closed_form tr features.
Proof.
  unfold spec_predict, closed_form. apply map_ext. intros t. simpl.
  rewrite spec_trend_noiseless, nth_np_zeros, add_0_r. reflexivity.
Qed.

End Exact.

(** *** The generator from call to call *)



(** [predict] on a frame without rows. *)
Lemma predict_no_row s g tr features noise :
  trace s = Some tr ->
  shape0 features = 0 ->
  fst (predict np_random_normal features noise (s, g)) = Err IndexError.
Proof.
  intros Htr Hrows.
  destruct (noise_of_sized tr (shape0 features) noise g) as (_ & _ & Hv).
  unfold predict. do 2 run_step.
  erewrite bind_ok by (apply noise_block_run; exact Htr).
  cbv beta iota. run_step.
  destruct (shape1 (t_delta tr)) as [| j] eqn:Hj.
  - erewrite bind_err by (unfold lift, last_column; rewrite Hj; reflexivity).
    reflexivity.
  - erewrite bind_ok by (unfold lift; rewrite last_column_ok by lia; reflexivity).
    erewrite bind_err
      by (unfold lift; rewrite getitem_empty by (rewrite Hv; exact Hrows);
          reflexivity).
    reflexivity.
Qed.

(** ** The claims *)

(** C2.  On an object on which [fit] has not been called, that is the
    object [__init__] leaves, every call of [predict] and of
    [posterior_model] fails, whatever the features, the [noise] flag
    and the state of the generator, and leaves the object as it was.
    The failure the specification names InferenceNotRunError, "stated
    abstractly", is in the program the [TypeError] Python raises when
    [self.trace], still [None], is subscripted. *)
Theorem unfitted_calls_fail (features : DataFrame R) (noise : bool) (g : rng) :
  predict np_random_normal features noise (init, g) = (Err TypeError, (init, g)) /\
  posterior_model features (init, g) = (Err TypeError, (init, g)).
Proof.
  split.
  - unfold predict. erewrite bind_err by (apply trace_item_none; reflexivity).
    reflexivity.
  - unfold posterior_model.
    erewrite bind_err by (apply trace_item_none; reflexivity). reflexivity.
Qed.

(** C3.  On a fitted object (a trace is stored, with at least one
    column of [delta] and of [trend]) and features of [T' >= 1] rows
    over the model's [K] columns, [predict(features, noise)] returns a
    trajectory [out] of length [T'] with
    [out[t] = trend[t] + alpha_hat + Σ_i beta_hat_i * features[t,i] + eps[t]],
    where [delta[0] = mean(trace['delta'][:, -1]) + v[0]],
    [trend[0] = mean(trace['trend'][:, -1]) + delta[0] + u[0]],
    [delta[t] = delta[t-1] + v[t]] and
    [trend[t] = trend[t-1] + delta[t] + u[t]] for [t >= 1]; [eps], [u],
    [v] are the vectors drawn from the generator when [noise] is true
    and zero vectors when it is false (the generator is then left
    untouched). *)
Theorem predict_follows_recursion s g tr features noise :
  trace s = Some tr ->
  1 <= shape1 (t_delta tr) ->
  1 <= shape1 (t_trend tr) ->
  1 <= shape0 features ->
  shape1 (t_beta tr) = shape1 features ->
  let drawn := noise_of np_random_normal tr (shape0 features) noise g in
  let eps := n_eps (fst drawn) in
  let u := n_u (fst drawn) in
  let v := n_v (fst drawn) in
  let delta := spec_delta (last_delta tr) v in
  let trend := spec_trend (last_trend tr) (last_delta tr) u v in
  exists out,
    predict np_random_normal features noise (s, g) = (Ok out, (s, snd drawn)) /\
    length out = shape0 features /\
    (forall t, t < shape0 features ->
       nth t out zero
       = add (add (add (trend t) (alpha_hat tr))
                  (regression (beta_hat tr) features t))
             (nth t eps zero)) /\
    delta 0 = add (last_delta tr) (nth 0 v zero) /\
    trend 0 = add (add (last_trend tr) (delta 0)) (nth 0 u zero) /\
    (forall t, 1 <= t ->
       delta t = add (delta (t - 1)) (nth t v zero) /\
       trend t = add (add (trend (t - 1)) (delta t)) (nth t u zero)) /\
    (noise = false -> drawn = (zero_noise (shape0 features), g)).
Proof.
  intros Htr Hd Hm Hrows Hcols drawn eps u v delta trend.
  exists (spec_predict tr features (fst drawn)).
  split; [apply predict_run; assumption |].
  split; [unfold spec_predict; rewrite length_map, length_seq; reflexivity |].
  split.
  { intros t Ht. unfold spec_predict. rewrite nth_map_seq by exact Ht.
    reflexivity. }
  split; [reflexivity |]. split; [reflexivity |]. split.
  - intros [| t] Ht; [lia |]. simpl. rewrite Nat.sub_0_r. split; reflexivity.
  - intros ->. reflexivity.
Qed.

(** C4.  On a fitted object and features with as many rows as the
    training window (and the model's [K] columns),
    [posterior_model(features)] returns a series of [features.rows]
    values, the one at [t] being
    [mean(trend[:,t]) + mean(alpha) + Σ_i mean(beta[:,i]) * features[t,i]],
    each mean taken over the posterior draws. *)
Theorem posterior_model_contract (s : BSTS R) (g : rng) tr features :
  trace s = Some tr ->
  shape0 features = shape1 (t_trend tr) ->
  shape1 (t_beta tr) = shape1 features ->
  exists out,
    posterior_model features (s, g) = (Ok out, (s, g)) /\
    length out = shape0 features /\
    forall t, t < shape0 features ->
      nth t out zero
      = add (add (mean (column (t_trend tr) t)) (mean (t_alpha tr)))
            (sum (map (fun i => mul (mean (column (t_beta tr) i))
                                    (cell features t i))
                      (seq 0 (shape1 features)))).
Proof.
  intros Htr Hrows Hcols. exists (spec_posterior_model tr features).
  split; [apply posterior_model_run; assumption |].
  unfold spec_posterior_model. split.
  - rewrite length_map, length_seq. reflexivity.
  - intros t Ht. rewrite nth_map_seq by exact Ht. reflexivity.
Qed.

(** C5.  [predict(features, noise=False)] draws nothing: it leaves
    the object and the generator as they were, a second call returns
    what the first returned, and so does a call made in any other state
    of the generator. *)
Theorem predict_noiseless_deterministic (features : DataFrame R) (s : BSTS R)
    (g : rng) :
  let first := predict np_random_normal features false (s, g) in
  snd first = (s, g) /\
  predict np_random_normal features false (snd first) = first /\
  forall g', fst (predict np_random_normal features false (s, g')) = fst first.
Proof.
  destruct (reads_predict_noiseless features s g) as [Hstate Hresult].
  cbv zeta. split; [exact Hstate |]. split.
  - rewrite Hstate. reflexivity.
  - exact Hresult.
Qed.


(** C7, as the program has it.  For an observed series of at least
    two values, the graph [fit] leaves in [self.model] has a [trend]
    of length [T], a [delta] of length [T - 1] and a [beta] of length
    [K], for [T] the length of [observed] and [K] the number of columns
    of [features], whether the likelihood and the sampling then succeed
    or not.  (A shorter series is rejected when [delta] is declared.) *)
Theorem fit_declares_shapes features observed n (s : BSTS R) (g : rng) :
  2 <= length observed ->
  exists graph,
    model (fst (snd (fit sample features observed n (s, g)))) = Some graph /\
    declared_shape "trend" graph = Some (Some (Z.of_nat (length observed))) /\
    declared_shape "delta" graph = Some (Some (Z.of_nat (length observed) - 1)%Z) /\
    declared_shape "beta" graph = Some (Some (Z.of_nat (shape1 features))).
Proof.
  intros HT. rewrite fit_eq.
  destruct (length observed) as [| [| T]] eqn:Hlen; [lia | lia |].
  destruct (broadcast (Vector (S (S T))) (regression_shape features)).
  - exists (declared_model features observed). split.
    + destruct (sample (declared_model features observed) n g) as [[tr | e] g'];
        reflexivity.
    + unfold declared_model. rewrite Hlen. repeat split.
  - exists (declared_so_far 7 features observed). split; [reflexivity |].
    unfold declared_so_far, declared_model. rewrite Hlen. repeat split.
Qed.

(** C8.  [posterior_model] and [predict] do not write to the
    object: after a call, successful or not, [self.model] and
    [self.trace] are what they were before. *)
Theorem trace_is_read_only (features : DataFrame R) (noise : bool)
    (w : state R rng) :
  let after_predict := fst (snd (predict np_random_normal features noise w)) in
  let after_summary := fst (snd (posterior_model features w)) in
  (model after_predict = model (fst w) /\ trace after_predict = trace (fst w)) /\
  (model after_summary = model (fst w) /\ trace after_summary = trace (fst w)).
Proof.
  cbv zeta. rewrite keeps_predict, keeps_posterior_model. repeat split.
Qed.

(** C9.  On a fitted object and features without any row,
    [predict] raises [IndexError] instead of returning an empty
    trajectory; hence whenever [predict] returns a trajectory, the
    features have at least one row. *)
Theorem predict_needs_a_row s g (features : DataFrame R) noise :
  (trace s <> None -> shape0 features = 0 ->
   fst (predict np_random_normal features noise (s, g)) = Err IndexError) /\
  (forall out,
     fst (predict np_random_normal features noise (s, g)) = Ok out ->
     1 <= shape0 features).
Proof.
  split.
  - intros Hfit Hrows. destruct (trace s) as [tr |] eqn:Htr; [| congruence].
    apply predict_no_row with (tr := tr); assumption.
  - intros out Hout. destruct (shape0 features) as [| k] eqn:Hrows; [| lia].
    destruct (trace s) as [tr |] eqn:Htr.
    + rewrite (@predict_no_row s g tr features noise Htr Hrows) in Hout.
      discriminate.
    + unfold predict in Hout.
      erewrite bind_err in Hout by (apply trace_item_none; exact Htr).
      discriminate.
Qed.

(** C10.  In exact arithmetic, on a fitted object and features of
    [T' >= 1] rows, [predict(features, noise=False)] is the linear
    extrapolation
    [out[t] = mean(trace['trend'][:, -1]) + (t+1) * mean(trace['delta'][:, -1])
              + alpha_hat + Σ_i beta_hat_i * features[t,i]]
    for every [t < T']. *)
Theorem predict_noiseless_closed_form (exact : ExactNum R) s g tr features :
  trace s = Some tr ->
  1 <= shape1 (t_delta tr) ->
  1 <= shape1 (t_trend tr) ->
  1 <= shape0 features ->
  shape1 (t_beta tr) = shape1 features ->
  exists out,
    predict np_random_normal features false (s, g) = (Ok out, (s, g)) /\
    length out = shape0 features /\
    forall t, t < shape0 features ->
      nth t out zero
      = add (add (add (last_trend tr) (mul (of_nat (t + 1)) (last_delta tr)))
                 (alpha_hat tr))
            (regression (beta_hat tr) features t).
Proof.
  intros Htr Hd Hm Hrows Hcols. exists (closed_form tr features).
  split.
  - rewrite <- spec_predict_noiseless.
    apply (@predict_run_sized s g tr features false); auto.
    apply zero_noise_sized.
  - unfold closed_form. split.
    + rewrite length_map, length_seq. reflexivity.
    + intros t Ht. rewrite nth_map_seq by exact Ht. reflexivity.
Qed.

(** C1, as the program has it.  [fit] has no check of its own and
    no [DimensionMismatchError]; a mismatch is caught, or not, by the
    library while the graph is declared.  For a series of at least two
    values: when the features have a column and their rows are neither
    as many as the observed values nor a single one, [fit] raises the
    [ValueError] of [trend + reg] before any sampling (the sampler is
    not called, the generator and [self.trace] are untouched and
    [self.model] holds the seven variables declared so far); when the
    features have no column, their rows are never read: the outcome is
    the same for every number of rows, and [fit] fails only if the
    sampler does. *)
Theorem fit_dimension_mismatch features features' observed n
    (s : BSTS R) (g : rng) :
  2 <= length observed ->
  (1 <= shape1 features ->
   shape0 features <> length observed -> shape0 features <> 1 ->
   fit sample features observed n (s, g)
   = (Err ValueError,
      ({| model := Some (declared_so_far 7 features observed);
          trace := trace s |}, g))) /\
  (shape1 features = 0 -> shape1 features' = 0 ->
   fit sample features observed n (s, g) = fit sample features' observed n (s, g) /\
   fst (fit sample features observed n (s, g))
   = match fst (sample (declared_model features observed) n g) with
     | Ok _ => Ok tt
     | Err e => Err e
     end).
Proof.
  intros HT. split.
  - intros HK Hrows Hone. apply fit_mismatch; assumption.
  - intros H H'. rewrite !fit_run by auto.
    rewrite (declared_model_no_column features features' observed H H').
    split; [reflexivity |].
    destruct (sample (declared_model features' observed) n g) as [[tr | e] g'];
      reflexivity.
Qed.

(** ** Further properties of the methods *)

(** *** Computations that read [self.trace] only *)

Lemma trace_only_ret {A} (a : A) : reads_trace_only (ret (R:=R) (rng:=rng) a).
Proof. intros s s' g H. repeat split. exact H. Qed.

Lemma trace_only_lift {A} (r : result A) :
  reads_trace_only (lift (R:=R) (rng:=rng) r).
Proof. intros s s' g H. repeat split. exact H. Qed.

Lemma trace_only_trace_item {A} (key : Trace R -> A) :
  reads_trace_only (trace_item (rng:=rng) key).
Proof.
  intros s s' g H. unfold trace_item. simpl. rewrite <- H.
  destruct (trace s) eqn:Hs; simpl; repeat split; congruence.
Qed.

Lemma trace_only_random_normal loc scale size :
  reads_trace_only (random_normal np_random_normal loc scale size).
Proof.
  intros s s' g H. unfold random_normal. simpl.
  destruct (np_random_normal loc scale size g). simpl. repeat split. exact H.
Qed.

Lemma trace_only_bind {A B} (m : M R rng A) (k : A -> M R rng B) :
  reads_trace_only m -> (forall a, reads_trace_only (k a)) ->
  reads_trace_only (bind m k).
Proof.
  intros Hm Hk s s' g H. unfold bind.
  destruct (Hm s s' g H) as (Hr & Hg & Ht).
  destruct (m (s, g)) as [r [s1 g1]]. destruct (m (s', g)) as [r' [s1' g1']].
  simpl in Hr, Hg, Ht. subst r' g1'.
  destruct r as [a | e].
  - apply Hk. exact Ht.
  - simpl. repeat split. exact Ht.
Qed.

Lemma trace_only_for_each {S} (body : nat -> S -> M R rng S) ts :
  (forall t s, reads_trace_only (body t s)) ->
  forall s, reads_trace_only (for_each ts body s).
Proof.
  intros Hbody. induction ts as [| t ts IH]; intros s; simpl.
  - apply trace_only_ret.
  - apply trace_only_bind; auto.
Qed.

Lemma trace_only_repeat_call {A} (m : M R rng A) n :
  reads_trace_only m -> reads_trace_only (repeat_call n m).
Proof.
  intros Hm. induction n as [| n IH]; simpl.
  - apply trace_only_ret.
  - apply trace_only_bind; [exact Hm | intros a].
    apply trace_only_bind; [exact IH | intros rest]. apply trace_only_ret.
Qed.

Ltac trace_only :=
  repeat first
    [ apply trace_only_ret | apply trace_only_lift | apply trace_only_trace_item
    | apply trace_only_random_normal
    | apply trace_only_bind; [| intros ?]
    | apply trace_only_for_each; intros ? ?
    | match goal with
      | |- reads_trace_only (match ?x with _ => _ end) => destruct x
      | |- reads_trace_only (let (_, _) := ?x in _) => destruct x
      end ].

Lemma trace_only_predict_step u v t s :
  reads_trace_only (predict_step (rng:=rng) u v t s).
Proof. unfold predict_step. trace_only. Qed.

Lemma trace_only_predict features noise :
  reads_trace_only (predict np_random_normal features noise).
Proof. unfold predict. trace_only. apply trace_only_predict_step. Qed.

Lemma trace_only_posterior_model features :
  reads_trace_only (posterior_model (rng:=rng) features).
Proof. unfold posterior_model. trace_only. Qed.

Lemma reads_posterior_model features :
  reads_only (posterior_model (rng:=rng) features).
Proof. unfold posterior_model. reads. Qed.

(** *** Auxiliary facts *)

Lemma mul_frame_mismatch (beta : list R) (features : DataFrame R) :
  length beta <> shape1 features -> mul_frame beta features = Err ValueError.
Proof.
  intros H. unfold mul_frame.
  destruct (Nat.eqb_spec (length beta) (shape1 features)); [contradiction |].
  reflexivity.
Qed.

Lemma spec_trend_ext m d (u u' v v' : list R) :
  (forall t, nth t u zero = nth t u' zero) ->
  (forall t, nth t v zero = nth t v' zero) ->
  forall t, spec_delta d v t = spec_delta d v' t /\
            spec_trend m d u v t = spec_trend m d u' v' t.
Proof.
  intros Hu Hv. induction t as [| t [IHd IHt]]; simpl.
  - rewrite Hu, Hv. split; reflexivity.
  - rewrite IHd, IHt, Hu, Hv. split; reflexivity.
Qed.

Lemma head_rows_shape0 k (a : DataFrame R) :
  k <= shape0 a -> shape0 (head_rows k a) = k.
Proof. unfold shape0, head_rows. simpl. intros H. rewrite length_firstn. lia. Qed.

Lemma head_rows_cell k (a : DataFrame R) t i :
  t < k -> cell (head_rows k a) t i = cell a t i.
Proof.
  intros Ht. unfold cell, head_rows. simpl. rewrite nth_firstn.
  destruct (Nat.ltb_spec t k); [reflexivity | lia].
Qed.

Lemma firstn_map_seq {A} (f : nat -> A) k n :
  k <= n -> firstn k (map f (seq 0 n)) = map f (seq 0 k).
Proof.
  intros Hk. replace n with (k + (n - k)) by lia.
  rewrite seq_app, map_app, firstn_app.
  rewrite length_map, length_seq, Nat.sub_diag, firstn_O, app_nil_r.
  apply firstn_all2. rewrite length_map, length_seq. lia.
Qed.

Lemma cumsum_ext (x y : nat -> R) :
  (forall k, x k = y k) -> forall t, cumsum x t = cumsum y t.
Proof.
  intros H. induction t as [| t IH]; simpl.
  - apply H.
  - rewrite IH, H. reflexivity.
Qed.

Section ExactSums.

Context {exact : ExactNum R}.

Lemma spec_delta_cumsum d (v : list R) t :
  spec_delta d v t = add d (cumsum (fun j => nth j v zero) t).
Proof.
  induction t as [| t IH]; simpl.
  - reflexivity.
  - rewrite IH, add_assoc. reflexivity.
Qed.

Lemma spec_trend_cumsum m d (u v : list R) t :
  spec_trend m d u v t
  = add m (cumsum (fun k => add (spec_delta d v k) (nth k u zero)) t).
Proof.
  induction t as [| t IH].
  - simpl. apply add_assoc.
  - change (spec_trend m d u v (S t))
      with (add (add (spec_trend m d u v t) (spec_delta d v (S t)))
                (nth (S t) u zero)).
    rewrite IH, !add_assoc. reflexivity.
Qed.

End ExactSums.

(** *** The properties *)

(** X1.  [predict_trajectories] does not write to the object either:
    whatever the number of trajectories and whether the call succeeds
    or fails, [self.model] and [self.trace] are as before. *)
Theorem predict_trajectories_keeps_object (features : DataFrame R) (n : nat)
    (w : state R rng) :
  let after := fst (snd (predict_trajectories np_random_normal features n w)) in
  model after = model (fst w) /\ trace after = trace (fst w).
Proof.
  cbv zeta. unfold predict_trajectories.
  rewrite (keeps_repeat_call n (@keeps_predict features true)). split; reflexivity.
Qed.

(** X2.  The three inference methods never look at [self.model]:
    with the same trace, any other model field gives the same result
    and leaves the generator in the same state. *)
Theorem inference_ignores_model (features : DataFrame R) (noise : bool) (n : nat)
    (s : BSTS R) (mdl : option (Model R)) (g : rng) :
  let s' := {| model := mdl; trace := trace s |} in
  (fst (predict np_random_normal features noise (s', g))
   = fst (predict np_random_normal features noise (s, g)) /\
   snd (snd (predict np_random_normal features noise (s', g)))
   = snd (snd (predict np_random_normal features noise (s, g)))) /\
  fst (posterior_model features (s', g)) = fst (posterior_model features (s, g)) /\
  (fst (predict_trajectories np_random_normal features n (s', g))
   = fst (predict_trajectories np_random_normal features n (s, g)) /\
   snd (snd (predict_trajectories np_random_normal features n (s', g)))
   = snd (snd (predict_trajectories np_random_normal features n (s, g)))).
Proof.
  intros s'. assert (H : trace s' = trace s) by reflexivity.
  destruct (trace_only_predict features noise s' s g H) as (H1 & H2 & _).
  destruct (trace_only_posterior_model features s' s g H) as (H3 & _).
  destruct (trace_only_repeat_call n (trace_only_predict features true) s' s g H)
    as (H4 & H5 & _).
  repeat split; assumption.
Qed.


(** X4.  [fit] followed by [posterior_model] on the training features:
    when the series has at least two values, the features are aligned
    with it and the sampler returns a trace that has the declared
    shapes of [trend] and [beta], the pair succeeds whatever the object held before, stores
    the new graph and trace, and returns as many values as were
    observed. *)
Theorem fit_then_posterior_model features observed n (s : BSTS R) (g g' : rng) tr :
  2 <= length observed ->
  sample (declared_model features observed) n g = (Ok tr, g') ->
  shape1 (t_trend tr) = length observed ->
  shape1 (t_beta tr) = shape1 features ->
  shape0 features = length observed ->
  exists out,
    bind (fit sample features observed n) (fun _ => posterior_model features) (s, g)
    = (Ok out, ({| model := Some (declared_model features observed);
                   trace := Some tr |}, g')) /\
    out = spec_posterior_model tr features /\
    length out = length observed.
Proof.
  intros HT Hs Htrend Hbeta Hrows. exists (spec_posterior_model tr features).
  split; [| split].
  - erewrite bind_ok by (rewrite fit_run, Hs by auto; reflexivity).
    apply posterior_model_run; [reflexivity | congruence | exact Hbeta].
  - reflexivity.
  - unfold spec_posterior_model. rewrite length_map, length_seq. exact Hrows.
Qed.

(** X5.  [fit] followed by [predict] over a horizon: when the series
    has at least two values, the training features are aligned with it
    (or have no column), the sampler returns a trace with at least one
    column of [delta] and of [trend] and the horizon has at least one
    row and the model's columns, the
    pair succeeds whatever the object held before and returns the
    forecast of the new trace, the noise being drawn from the generator
    as the sampler left it. *)
Theorem fit_then_predict features observed n horizon noise
    (s : BSTS R) (g g' : rng) tr :
  2 <= length observed ->
  shape1 features = 0 \/ shape0 features = length observed ->
  sample (declared_model features observed) n g = (Ok tr, g') ->
  1 <= shape1 (t_delta tr) ->
  1 <= shape1 (t_trend tr) ->
  1 <= shape0 horizon ->
  shape1 (t_beta tr) = shape1 horizon ->
  let drawn := noise_of np_random_normal tr (shape0 horizon) noise g' in
  bind (fit sample features observed n)
       (fun _ => predict np_random_normal horizon noise) (s, g)
  = (Ok (spec_predict tr horizon (fst drawn)),
     ({| model := Some (declared_model features observed); trace := Some tr |},
      snd drawn)) /\
  length (spec_predict tr horizon (fst drawn)) = shape0 horizon.
Proof.
  intros HT Hfit Hs Hd Hm Hrows Hcols drawn. split.
  - erewrite bind_ok by (rewrite fit_run, Hs by auto; reflexivity).
    apply predict_run; auto.
  - unfold spec_predict. rewrite length_map, length_seq. reflexivity.
Qed.

(** X6.  Edge cases of [predict_trajectories]: asked for no
    trajectory it returns the empty table without calling [predict],
    even on an object that was never fitted; asked for at least one it
    fails as the first call of [predict] does, with [TypeError] on a
    fresh object and with [IndexError] on a fitted object when the
    features have no row. *)
Theorem predict_trajectories_edge_cases (features : DataFrame R) :
  (forall w, predict_trajectories np_random_normal features 0 w = (Ok [], w)) /\
  (forall n g,
     predict_trajectories np_random_normal features (S n) (init, g)
     = (Err TypeError, (init, g))) /\
  (forall n s g,
     trace s <> None -> shape0 features = 0 ->
     fst (predict_trajectories np_random_normal features (S n) (s, g))
     = Err IndexError).
Proof.
  split; [| split].
  - intros w. reflexivity.
  - intros n g. unfold predict_trajectories. simpl repeat_call.
    erewrite bind_err; [reflexivity |].
    unfold predict. erewrite bind_err by (apply trace_item_none; reflexivity).
    reflexivity.
  - intros n s g Hfit Hrows. destruct (trace s) as [tr |] eqn:Htr; [| congruence].
    pose proof (@predict_no_row s g tr features true Htr Hrows) as Hfail.
    unfold predict_trajectories. simpl repeat_call. unfold bind at 1.
    destruct (predict np_random_normal features true (s, g)) as [[row | e] w'];
      simpl in Hfail; [discriminate |].
    simpl. injection Hfail as ->. reflexivity.
Qed.

(** X7.  [posterior_model] draws nothing: it leaves the object and the
    generator as they were and returns the same result from every
    state of the generator. *)
Theorem posterior_model_draws_nothing (features : DataFrame R) (s : BSTS R)
    (g : rng) :
  snd (posterior_model (rng:=rng) features (s, g)) = (s, g) /\
  forall g', fst (posterior_model (rng:=rng) features (s, g'))
             = fst (posterior_model (rng:=rng) features (s, g)).
Proof. apply reads_posterior_model. Qed.

(** X8.  On a fitted object, [posterior_model] raises [ValueError]
    when the features do not have as many columns as [beta] has
    coefficients, whatever the number of rows. *)
Theorem posterior_model_column_mismatch (s : BSTS R) (g : rng) tr features :
  trace s = Some tr ->
  shape1 (t_beta tr) <> shape1 features ->
  posterior_model features (s, g) = (Err ValueError, (s, g)).
Proof.
  intros Htr Hcols. unfold posterior_model. do 3 run_step.
  erewrite bind_err; [reflexivity |].
  unfold lift. rewrite mul_frame_mismatch; [reflexivity |].
  rewrite mean_axis0_length. exact Hcols.
Qed.

(** X9.  On a fitted object and features of at least one row whose
    number of columns differs from the number of coefficients,
    [predict] raises [ValueError], but only at its last statement: the
    noise has been drawn and the generator is left advanced by the
    three draws. *)
Theorem predict_column_mismatch s g tr features noise :
  trace s = Some tr ->
  1 <= shape1 (t_delta tr) ->
  1 <= shape1 (t_trend tr) ->
  1 <= shape0 features ->
  shape1 (t_beta tr) <> shape1 features ->
  predict np_random_normal features noise (s, g)
  = (Err ValueError,
     (s, snd (noise_of np_random_normal tr (shape0 features) noise g))).
Proof.
  intros Htr Hd Hm Hrows Hcols.
  destruct (noise_of_sized tr (shape0 features) noise g) as (Heps & Hu & Hv).
  unfold predict. do 2 run_step.
  erewrite bind_ok by (apply noise_block_run; exact Htr).
  destruct (noise_of np_random_normal tr (shape0 features) noise g) as [nz g1].
  simpl fst in *. simpl snd. do 7 run_step.
  fold (last_delta tr). fold (last_trend tr).
  destruct (shape0 features) as [| k] eqn:Hk; [lia |].
  erewrite bind_ok
    by (apply (predict_loop (n_u nz) (n_v nz) (last_trend tr) (last_delta tr)); lia).
  cbv beta iota. erewrite bind_err; [reflexivity |].
  unfold lift. rewrite mul_frame_mismatch; [reflexivity |].
  rewrite mean_axis0_length. exact Hcols.
Qed.

(** X10.  In exact arithmetic the loop of [predict] is a double
    running sum: [delta[t] = last_delta + cumsum(v)[t]] and
    [trend[t] = last_trend + cumsum(delta + u)[t]], so that
    [out[t] = last_trend + cumsum(delta + u)[t] + alpha_hat
              + Σ_i beta_hat_i * features[t,i] + eps[t]]. *)
Theorem predict_is_cumulative_sum (exact : ExactNum R) s g tr features noise :
  trace s = Some tr ->
  1 <= shape1 (t_delta tr) ->
  1 <= shape1 (t_trend tr) ->
  1 <= shape0 features ->
  shape1 (t_beta tr) = shape1 features ->
  let drawn := noise_of np_random_normal tr (shape0 features) noise g in
  let eps := n_eps (fst drawn) in
  let u := n_u (fst drawn) in
  let v := n_v (fst drawn) in
  let delta := fun k => add (last_delta tr) (cumsum (fun j => nth j v zero) k) in
  exists out,
    predict np_random_normal features noise (s, g) = (Ok out, (s, snd drawn)) /\
    forall t, t < shape0 features ->
      nth t out zero
      = add (add (add (add (last_trend tr)
                           (cumsum (fun k => add (delta k) (nth k u zero)) t))
                      (alpha_hat tr))
                 (regression (beta_hat tr) features t))
            (nth t eps zero).
Proof.
  intros Htr Hd Hm Hrows Hcols drawn eps u v delta.
  exists (spec_predict tr features (fst drawn)).
  split; [apply predict_run; assumption |].
  intros t Ht. unfold spec_predict. rewrite nth_map_seq by exact Ht.
  rewrite spec_trend_cumsum. do 4 f_equal.
  apply cumsum_ext. intros k. rewrite spec_delta_cumsum. reflexivity.
Qed.

(** X11.  Without noise the forecast of a shorter horizon is the
    beginning of the forecast of the longer one: on a fitted object,
    [predict(features.iloc[:k], noise=False)] is the first [k] values of
    [predict(features, noise=False)], for [1 <= k <= features.rows]. *)
Theorem predict_noiseless_prefix s g tr features k :
  trace s = Some tr ->
  1 <= shape1 (t_delta tr) ->
  1 <= shape1 (t_trend tr) ->
  1 <= k -> k <= shape0 features ->
  shape1 (t_beta tr) = shape1 features ->
  exists out,
    predict np_random_normal features false (s, g) = (Ok out, (s, g)) /\
    predict np_random_normal (head_rows k features) false (s, g)
    = (Ok (firstn k out), (s, g)).
Proof.
  intros Htr Hd Hm Hk Hle Hcols.
  exists (spec_predict tr features (zero_noise (shape0 features))).
  split.
  - apply (@predict_run_sized s g tr features false); auto; [| lia].
    apply zero_noise_sized.
  - rewrite (@predict_run_sized s g tr (head_rows k features) false); auto.
    + simpl noise_of. simpl fst. simpl snd. f_equal. f_equal.
      unfold spec_predict. rewrite head_rows_shape0 by exact Hle.
      rewrite firstn_map_seq by exact Hle.
      apply map_ext_in. intros t Ht. apply in_seq in Ht.
      destruct (spec_trend_ext (last_trend tr) (last_delta tr)
                  (np_zeros k) (np_zeros (shape0 features))
                  (np_zeros k) (np_zeros (shape0 features))
                  (fun t => eq_trans (nth_np_zeros k t)
                                     (eq_sym (nth_np_zeros (shape0 features) t)))
                  (fun t => eq_trans (nth_np_zeros k t)
                                     (eq_sym (nth_np_zeros (shape0 features) t)))
                  t) as [_ Htrend].
      simpl n_u. simpl n_v. simpl n_eps. rewrite Htrend, !nth_np_zeros.
      f_equal. f_equal. unfold regression. simpl shape1. f_equal.
      apply map_ext_in. intros i _. rewrite head_rows_cell by lia. reflexivity.
    + simpl. apply zero_noise_sized.
    + rewrite head_rows_shape0 by exact Hle. exact Hk.
Qed.

End Properties.

(** ** The concrete instance satisfies the assumptions *)

Lemma Qc_of_nat_S n : (of_nat (S n) : Qc) = Qcplus (of_nat n) (Q2Qc 1).
Proof.
  unfold of_nat, Qc_Num. apply Qc_is_canon. unfold Qcplus, Q2Qc, this.
  rewrite !Qred_correct. rewrite Nat2Z.inj_succ. unfold Z.succ.
  rewrite inject_Z_plus. reflexivity.
Qed.

Lemma Qc_ExactNum : ExactNum Qc.
Proof.
  split; intros.
  - apply Qcplus_0_l.
  - apply Qcplus_0_r.
  - symmetry. apply Qcplus_assoc.
  - apply Qcmult_0_l.
  - rewrite Qc_of_nat_S. unfold add, mul, Qc_Num.
    rewrite Qcmult_plus_distr_l, Qcmult_1_l. reflexivity.
Qed.

Lemma toy_normal_length loc scale n g : length (fst (toy_normal loc scale n g)) = n.
Proof. unfold toy_normal. simpl. rewrite length_map, length_seq. reflexivity. Qed.

(** ** The theorems on the concrete instance *)

(** The methods run: the forecast without noise from the toy trace is
    [16; 20; 24], the fitted signal [11; 14; 18]. *)
Example predict_noiseless_values :
  match fst (predict toy_normal toy_features false (toy_fitted, 0)) with
  | Ok out => map this out = [16 # 1; 20 # 1; 24 # 1]%Q
  | Err _ => False
  end.
Proof. vm_compute. reflexivity. Qed.

Example posterior_model_values :
  match fst (posterior_model toy_features (toy_fitted, 0)) with
  | Ok out => map this out = [11 # 1; 14 # 1; 18 # 1]%Q
  | Err _ => False
  end.
Proof. vm_compute. reflexivity. Qed.

(** Without a row there is no forecast, with or without noise. *)
Example predict_no_rows_values :
  fst (predict toy_normal no_rows false (toy_fitted, 0)) = Err IndexError /\
  fst (predict toy_normal no_rows true (toy_fitted, 0)) = Err IndexError.
Proof. split; reflexivity. Qed.

(** Two trajectories of three steps, drawn one after the other. *)
Example predict_trajectories_values :
  match fst (predict_trajectories toy_normal toy_features 2 (toy_fitted, 0)) with
  | Ok table => map (map this) table
                = [[25 # 1; 48 # 1; 80 # 1]; [61 # 1; 111 # 1; 179 # 1]]%Q
  | Err _ => False
  end.
Proof. vm_compute. reflexivity. Qed.

Lemma predict_follows_recursion_witness :
  trace toy_fitted = Some toy_trace /\
  1 <= shape1 (t_delta toy_trace) /\
  1 <= shape1 (t_trend toy_trace) /\
  1 <= shape0 toy_features /\
  shape1 (t_beta toy_trace) = shape1 toy_features /\
  exists out,
    predict toy_normal toy_features true (toy_fitted, 0)
    = (Ok out, (toy_fitted, 9)) /\
    length out = 3.
Proof.
  assert (H1 : trace toy_fitted = Some toy_trace) by reflexivity.
  assert (H2 : 1 <= shape1 (t_delta toy_trace)) by (vm_compute; lia).
  assert (H3 : 1 <= shape1 (t_trend toy_trace)) by (vm_compute; lia).
  assert (H4 : 1 <= shape0 toy_features) by (vm_compute; lia).
  assert (H5 : shape1 (t_beta toy_trace) = shape1 toy_features) by reflexivity.
  repeat (split; [assumption |]).
  destruct (@predict_follows_recursion Qc Qc_Num nat toy_normal toy_normal_length
              toy_fitted 0 toy_trace toy_features true H1 H2 H3 H4 H5)
    as (out & Hrun & Hlen & _).
  exists out. split; [exact Hrun | exact Hlen].
Defined.

Lemma posterior_model_contract_witness :
  trace toy_fitted = Some toy_trace /\
  shape0 toy_features = shape1 (t_trend toy_trace) /\
  shape1 (t_beta toy_trace) = shape1 toy_features /\
  exists out,
    posterior_model toy_features (toy_fitted, 0) = (Ok out, (toy_fitted, 0)) /\
    length out = 3.
Proof.
  assert (H1 : trace toy_fitted = Some toy_trace) by reflexivity.
  assert (H2 : shape0 toy_features = shape1 (t_trend toy_trace)) by reflexivity.
  assert (H3 : shape1 (t_beta toy_trace) = shape1 toy_features) by reflexivity.
  repeat (split; [assumption |]).
  destruct (@posterior_model_contract Qc Qc_Num nat toy_fitted 0 toy_trace
              toy_features H1 H2 H3)
    as (out & Hrun & Hlen & _).
  exists out. split; [exact Hrun | exact Hlen].
Defined.


Lemma predict_needs_a_row_witness :
  trace toy_fitted <> None /\
  shape0 no_rows = 0 /\
  fst (predict toy_normal no_rows true (toy_fitted, 0)) = Err IndexError.
Proof.
  assert (H1 : trace toy_fitted <> None) by (simpl; discriminate).
  assert (H2 : shape0 no_rows = 0) by reflexivity.
  repeat (split; [assumption |]).
  exact (proj1 (@predict_needs_a_row Qc Qc_Num nat toy_normal toy_normal_length
                  toy_fitted 0 no_rows true) H1 H2).
Defined.

Lemma predict_noiseless_closed_form_witness :
  trace toy_fitted = Some toy_trace /\
  1 <= shape1 (t_delta toy_trace) /\
  1 <= shape1 (t_trend toy_trace) /\
  1 <= shape0 toy_features /\
  shape1 (t_beta toy_trace) = shape1 toy_features /\
  exists out,
    predict toy_normal toy_features false (toy_fitted, 0)
    = (Ok out, (toy_fitted, 0)) /\
    nth 2 out zero
    = add (add (add (last_trend toy_trace) (mul (of_nat 3) (last_delta toy_trace)))
               (alpha_hat toy_trace))
          (regression (beta_hat toy_trace) toy_features 2).
Proof.
  assert (H1 : trace toy_fitted = Some toy_trace) by reflexivity.
  assert (H2 : 1 <= shape1 (t_delta toy_trace)) by (vm_compute; lia).
  assert (H3 : 1 <= shape1 (t_trend toy_trace)) by (vm_compute; lia).
  assert (H4 : 1 <= shape0 toy_features) by (vm_compute; lia).
  assert (H5 : shape1 (t_beta toy_trace) = shape1 toy_features) by reflexivity.
  repeat (split; [assumption |]).
  destruct (@predict_noiseless_closed_form Qc Qc_Num nat toy_normal Qc_ExactNum
              toy_fitted 0 toy_trace toy_features H1 H2 H3 H4 H5)
    as (out & Hrun & _ & Hform).
  exists out. split; [exact Hrun |].
  apply (Hform 2). vm_compute. lia.
Defined.

Lemma fit_dimension_mismatch_witness :
  2 <= length toy_observed /\
  1 <= shape1 toy_features /\
  shape0 toy_features <> length toy_observed /\
  shape0 toy_features <> 1 /\
  shape1 no_columns = 0 /\
  shape1 two_columns_free = 0 /\
  fit toy_sample toy_features toy_observed 3 (init, 0)
  = (Err ValueError,
     ({| model := Some (declared_so_far 7 toy_features toy_observed);
         trace := None |}, 0)) /\
  fit toy_sample no_columns toy_observed 3 (init, 0)
  = fit toy_sample two_columns_free toy_observed 3 (init, 0).
Proof.
  assert (H0 : 2 <= length toy_observed) by (vm_compute; lia).
  assert (H1 : 1 <= shape1 toy_features) by (vm_compute; lia).
  assert (H2 : shape0 toy_features <> length toy_observed) by (vm_compute; lia).
  assert (H3 : shape0 toy_features <> 1) by (vm_compute; lia).
  assert (H4 : shape1 no_columns = 0) by reflexivity.
  assert (H5 : shape1 two_columns_free = 0) by reflexivity.
  repeat (split; [assumption |]).
  split.
  - exact (proj1 (@fit_dimension_mismatch Qc Qc_Num nat toy_sample toy_features
                    toy_features toy_observed 3 init 0 H0) H1 H2 H3).
  - exact (proj1 (proj2 (@fit_dimension_mismatch Qc Qc_Num nat toy_sample
                           no_columns two_columns_free toy_observed 3 init 0 H0)
                    H4 H5)).
Defined.

Lemma fit_declares_shapes_witness :
  2 <= length toy_observed3 /\
  exists graph,
    model (fst (snd (fit toy_sample toy_features toy_observed3 3 (init, 0))))
    = Some graph /\
    declared_shape "trend" graph = Some (Some 3%Z) /\
    declared_shape "delta" graph = Some (Some 2%Z) /\
    declared_shape "beta" graph = Some (Some 1%Z).
Proof.
  assert (H0 : 2 <= length toy_observed3) by (vm_compute; lia).
  split; [assumption |].
  exact (@fit_declares_shapes Qc Qc_Num nat toy_sample toy_features toy_observed3
           3 init 0 H0).
Defined.

(** C7, as stated, fails: with a single observed value the library
    rejects the declaration of [delta] (an empty walk), [fit] raises
    and the graph left in [self.model] has neither [delta] nor
    [trend]. *)
Lemma fit_short_series_declares_no_trend :
  fit toy_sample one_row one_observed 3 (init, 0)
  = (Err IndexError,
     ({| model := Some (declared_so_far 5 one_row one_observed);
         trace := None |}, 0)) /\
  declared_shape "trend" (declared_so_far 5 one_row one_observed) = None /\
  declared_shape "delta" (declared_so_far 5 one_row one_observed) = None.
Proof. repeat split. Qed.

(** C10, as stated, fails in the arithmetic of the program: in
    binary64, six steps of slope 0.1 from level 0 give
    0.59999999999999998 by the loop of [predict] and
    0.60000000000000009 by the closed form [0 + 6 * 0.1]. *)
Lemma predict_binary64_is_not_closed_form :
  fst (predict float_normal float_features false (float_fitted, tt))
  = Ok [0x1.999999999999ap-4; 0x1.999999999999ap-3; 0x1.3333333333334p-2;
        0x1.999999999999ap-2; 0x1p-1; 0x1.3333333333333p-1]%float /\
  closed_form float_trace float_features
  = [0x1.999999999999ap-4; 0x1.999999999999ap-3; 0x1.3333333333334p-2;
     0x1.999999999999ap-2; 0x1p-1; 0x1.3333333333334p-1]%float /\
  fst (predict float_normal float_features false (float_fitted, tt))
  <> Ok (closed_form float_trace float_features).
Proof.
  assert (Hrun : fst (predict float_normal float_features false (float_fitted, tt))
                 = Ok [0x1.999999999999ap-4; 0x1.999999999999ap-3;
                       0x1.3333333333334p-2; 0x1.999999999999ap-2; 0x1p-1;
                       0x1.3333333333333p-1]%float)
    by (vm_compute; reflexivity).
  assert (Hform : closed_form float_trace float_features
                  = [0x1.999999999999ap-4; 0x1.999999999999ap-3;
                     0x1.3333333333334p-2; 0x1.999999999999ap-2; 0x1p-1;
                     0x1.3333333333334p-1]%float)
    by (vm_compute; reflexivity).
  split; [exact Hrun |]. split; [exact Hform |].
  rewrite Hrun, Hform. intros Heq.
  pose proof (f_equal (fun r => match r with
                                | Ok out => PrimFloat.eqb (nth 5 out PrimFloat.zero)
                                              0x1.3333333333334p-1%float
                                | Err _ => true
                                end) Heq) as Hcmp.
  vm_compute in Hcmp. discriminate.
Qed.

(** C1, as stated, fails: with three rows of features (and no column)
    against two observed values, [fit] raises nothing and stores the
    trace of the sampler. *)
Lemma fit_accepts_mismatched_rows :
  shape0 no_columns <> length toy_observed /\
  fit toy_sample no_columns toy_observed 3 (init, 0)
  = (Ok tt, ({| model := Some (declared_model no_columns toy_observed);
                trace := Some toy_trace |}, 1)).
Proof. split; [vm_compute; lia | reflexivity]. Qed.

(** ** The further properties on the concrete instance *)


Lemma fit_then_posterior_model_witness :
  2 <= length toy_observed3 /\
  toy_sample (declared_model toy_features toy_observed3) 3 0 = (Ok toy_trace, 1) /\
  shape1 (t_trend toy_trace) = length toy_observed3 /\
  shape1 (t_beta toy_trace) = shape1 toy_features /\
  shape0 toy_features = length toy_observed3 /\
  exists out,
    fst (bind (fit toy_sample toy_features toy_observed3 3)
              (fun _ => posterior_model toy_features) (init, 0)) = Ok out /\
    length out = 3.
Proof.
  assert (H0 : 2 <= length toy_observed3) by (vm_compute; lia).
  assert (H1 : toy_sample (declared_model toy_features toy_observed3) 3 0
               = (Ok toy_trace, 1)) by reflexivity.
  assert (H2 : shape1 (t_trend toy_trace) = length toy_observed3) by reflexivity.
  assert (H3 : shape1 (t_beta toy_trace) = shape1 toy_features) by reflexivity.
  assert (H4 : shape0 toy_features = length toy_observed3) by reflexivity.
  repeat (split; [assumption |]).
  destruct (@fit_then_posterior_model Qc Qc_Num nat toy_sample toy_features
              toy_observed3 3 init 0 1 toy_trace H0 H1 H2 H3 H4)
    as (out & Hrun & _ & Hlen).
  exists out. split; [rewrite Hrun; reflexivity | exact Hlen].
Defined.

Lemma fit_then_predict_witness :
  2 <= length toy_observed3 /\
  (shape1 toy_features = 0 \/ shape0 toy_features = length toy_observed3) /\
  toy_sample (declared_model toy_features toy_observed3) 3 0 = (Ok toy_trace, 1) /\
  1 <= shape1 (t_delta toy_trace) /\
  1 <= shape1 (t_trend toy_trace) /\
  1 <= shape0 toy_features /\
  shape1 (t_beta toy_trace) = shape1 toy_features /\
  exists out,
    fst (bind (fit toy_sample toy_features toy_observed3 3)
              (fun _ => predict toy_normal toy_features true) (init, 0)) = Ok out /\
    length out = 3.
Proof.
  assert (H0 : 2 <= length toy_observed3) by (vm_compute; lia).
  assert (Hfit : shape1 toy_features = 0 \/
                 shape0 toy_features = length toy_observed3)
    by (right; reflexivity).
  assert (H1 : toy_sample (declared_model toy_features toy_observed3) 3 0
               = (Ok toy_trace, 1)) by reflexivity.
  assert (H2 : 1 <= shape1 (t_delta toy_trace)) by (vm_compute; lia).
  assert (H3 : 1 <= shape1 (t_trend toy_trace)) by (vm_compute; lia).
  assert (H4 : 1 <= shape0 toy_features) by (vm_compute; lia).
  assert (H5 : shape1 (t_beta toy_trace) = shape1 toy_features) by reflexivity.
  repeat (split; [assumption |]).
  destruct (@fit_then_predict Qc Qc_Num nat toy_normal toy_sample toy_normal_length
              toy_features toy_observed3 3 toy_features true init 0 1 toy_trace
              H0 Hfit H1 H2 H3 H4 H5)
    as (Hrun & Hlen).
  eexists. split; [rewrite Hrun; reflexivity | exact Hlen].
Defined.

Lemma predict_trajectories_edge_cases_witness :
  trace toy_fitted <> None /\
  shape0 no_rows = 0 /\
  fst (predict_trajectories toy_normal no_rows 2 (toy_fitted, 0)) = Err IndexError.
Proof.
  assert (H1 : trace toy_fitted <> None) by (simpl; discriminate).
  assert (H2 : shape0 no_rows = 0) by reflexivity.
  repeat (split; [assumption |]).
  exact (proj2 (proj2 (@predict_trajectories_edge_cases Qc Qc_Num nat toy_normal
                         toy_normal_length no_rows)) 1 toy_fitted 0 H1 H2).
Defined.

Lemma posterior_model_column_mismatch_witness :
  trace toy_fitted = Some toy_trace /\
  shape1 (t_beta toy_trace) <> shape1 two_columns /\
  posterior_model two_columns (toy_fitted, 0) = (Err ValueError, (toy_fitted, 0)).
Proof.
  assert (H1 : trace toy_fitted = Some toy_trace) by reflexivity.
  assert (H2 : shape1 (t_beta toy_trace) <> shape1 two_columns)
    by (vm_compute; lia).
  repeat (split; [assumption |]).
  exact (@posterior_model_column_mismatch Qc Qc_Num nat toy_fitted 0 toy_trace
           two_columns H1 H2).
Defined.

Lemma predict_column_mismatch_witness :
  trace toy_fitted = Some toy_trace /\
  1 <= shape1 (t_delta toy_trace) /\
  1 <= shape1 (t_trend toy_trace) /\
  1 <= shape0 two_columns /\
  shape1 (t_beta toy_trace) <> shape1 two_columns /\
  predict toy_normal two_columns true (toy_fitted, 0)
  = (Err ValueError, (toy_fitted, 3)).
Proof.
  assert (H1 : trace toy_fitted = Some toy_trace) by reflexivity.
  assert (H2 : 1 <= shape1 (t_delta toy_trace)) by (vm_compute; lia).
  assert (H3 : 1 <= shape1 (t_trend toy_trace)) by (vm_compute; lia).
  assert (H4 : 1 <= shape0 two_columns) by (vm_compute; lia).
  assert (H5 : shape1 (t_beta toy_trace) <> shape1 two_columns)
    by (vm_compute; lia).
  repeat (split; [assumption |]).
  exact (@predict_column_mismatch Qc Qc_Num nat toy_normal toy_normal_length
           toy_fitted 0 toy_trace two_columns true H1 H2 H3 H4 H5).
Defined.

Lemma predict_is_cumulative_sum_witness :
  trace toy_fitted = Some toy_trace /\
  1 <= shape1 (t_delta toy_trace) /\
  1 <= shape1 (t_trend toy_trace) /\
  1 <= shape0 toy_features /\
  shape1 (t_beta toy_trace) = shape1 toy_features /\
  exists out,
    predict toy_normal toy_features true (toy_fitted, 0)
    = (Ok out, (toy_fitted, 9)) /\
    length out = 3.
Proof.
  assert (H1 : trace toy_fitted = Some toy_trace) by reflexivity.
  assert (H2 : 1 <= shape1 (t_delta toy_trace)) by (vm_compute; lia).
  assert (H3 : 1 <= shape1 (t_trend toy_trace)) by (vm_compute; lia).
  assert (H4 : 1 <= shape0 toy_features) by (vm_compute; lia).
  assert (H5 : shape1 (t_beta toy_trace) = shape1 toy_features) by reflexivity.
  repeat (split; [assumption |]).
  destruct (@predict_is_cumulative_sum Qc Qc_Num nat toy_normal toy_normal_length
              Qc_ExactNum toy_fitted 0 toy_trace toy_features true
              H1 H2 H3 H4 H5)
    as (out & Hrun & _).
  exists out. split; [exact Hrun |].
  pose proof (f_equal fst Hrun) as Hout. vm_compute in Hout.
  injection Hout as <-. reflexivity.
Defined.

Lemma predict_noiseless_prefix_witness :
  trace toy_fitted = Some toy_trace /\
  1 <= shape1 (t_delta toy_trace) /\
  1 <= shape1 (t_trend toy_trace) /\
  1 <= 2 /\ 2 <= shape0 toy_features /\
  shape1 (t_beta toy_trace) = shape1 toy_features /\
  exists out,
    predict toy_normal toy_features false (toy_fitted, 0)
    = (Ok out, (toy_fitted, 0)) /\
    predict toy_normal (head_rows 2 toy_features) false (toy_fitted, 0)
    = (Ok (firstn 2 out), (toy_fitted, 0)).
Proof.
  assert (H1 : trace toy_fitted = Some toy_trace) by reflexivity.
  assert (H2 : 1 <= shape1 (t_delta toy_trace)) by (vm_compute; lia).
  assert (H3 : 1 <= shape1 (t_trend toy_trace)) by (vm_compute; lia).
  assert (H4 : 1 <= 2) by lia.
  assert (H5 : 2 <= shape0 toy_features) by (vm_compute; lia).
  assert (H6 : shape1 (t_beta toy_trace) = shape1 toy_features) by reflexivity.
  repeat (split; [assumption |]).
  exact (@predict_noiseless_prefix Qc Qc_Num nat toy_normal toy_fitted 0 toy_trace
           toy_features 2 H1 H2 H3 H4 H5 H6).
Defined.
